(** * gisspy: layered middleware for API routes and page-data handlers

    A shallow embedding of [src/api.ts] (class [ApiMiddlewareFactory]) and of
    [src/pages.ts] (class [PageMiddlewareFactory]), with the properties of the
    layer-composition engine proved about it.

    Conventions of the embedding.
    - JavaScript values are the inductive type [value]; a plain object is a
      finite map from property names to values ([gmap string value]), so two
      objects are equal when they hold the same properties (property order is
      not represented).  Numbers are the integers; a string is given by its
      UTF-8 bytes.  Functions, promises and prototype chains are not values
      of the model: every object has the prototype of an object literal.
    - [await e] on a value that is not a promise is the value itself.  The
      one property the engine awaits is [props] of the page flavor's final
      result, whose type is [P | Promise<P>]: a final result whose [props]
      holds a promise is a result of its own kind ([Page.Promising]), given
      with the way the promise settles.
    - A layer or a final handler is a function of the context it is handed
      (the framework's request objects and the current accumulators) and of
      the state of the outside world, which it may change; it completes by
      returning a value or by throwing one.  It reads the accumulators it is
      handed and does not write to them: the engine alone updates them.
    - The arrays of layers that builders hold live in a store and are referred
      to by location, so that sharing between builders is explicit.
    - Every run also records, as ghost state, the calls it made and the
      content of its accumulators when it finished. *)

From Stdlib Require Import Ascii String.
From stdpp Require Import gmap strings list fin_maps pretty.

Set Warnings "-register-all".

(** ** JavaScript values and the operators the engine uses *)

Module JS.

Inductive value : Type :=
  | VUndef
  | VNull
  | VBool (b : bool)
  | VNum (z : Z)
  | VStr (s : string)
  | VObj (m : gmap string value).

Abbreviation obj := (gmap string value).

(** How a call completes: [return v] or [throw e]. *)
Inductive completion : Type :=
  | Return (v : value)
  | Throw (e : value).

(** The value thrown by the [in] operator on a right operand that is not an
    object. *)
Definition TypeError : value := VObj {[ "name" := VStr "TypeError" ]}.

(** [ToBoolean]: [undefined], [null], [false], [0] and the empty string are
    falsy, everything else (every object included) is truthy. *)
Definition truthy (v : value) : bool :=
  match v with
  | VUndef | VNull => false
  | VBool b => b
  | VNum z => negb (z =? 0)%Z
  | VStr s => negb (String.eqb s "")
  | VObj _ => true
  end.

(** [k in o] for a plain object [o]. *)
Definition has (k : string) (o : obj) : bool := bool_decide (is_Some (o !! k)).

(** [o.k]: the property's value, [undefined] when the property is absent. *)
Definition get (o : obj) (k : string) : value := default VUndef (o !! k).

(** A JavaScript string is a sequence of UTF-16 code units.  [units s] are
    the code units of the string whose UTF-8 bytes are [s], each as a string
    of its own: the bytes of a character of one, two or three bytes make one
    unit, a character of four bytes makes the two surrogates, each written
    with the three bytes that extend UTF-8 to it.  (A byte that does not
    start a character of well-formed UTF-8 is kept as a unit.) *)
Definition surrogate (u : N) : string :=
  String (ascii_of_N 237)
    (String (ascii_of_N (128 + (u / 64) mod 64))
       (String (ascii_of_N (128 + u mod 64)) EmptyString)).

Fixpoint units (s : string) : list string :=
  match s with
  | EmptyString => []
  | String b0 s1 =>
      let one := String b0 EmptyString :: units s1 in
      if (N_of_ascii b0 <? 192)%N then one
      else if (N_of_ascii b0 <? 224)%N then
        match s1 with
        | String b1 s2 => String b0 (String b1 EmptyString) :: units s2
        | EmptyString => one
        end
      else if (N_of_ascii b0 <? 240)%N then
        match s1 with
        | String b1 (String b2 s3) =>
            String b0 (String b1 (String b2 EmptyString)) :: units s3
        | _ => one
        end
      else
        match s1 with
        | String b1 (String b2 (String b3 s4)) =>
            let cp := ((N_of_ascii b0 mod 8) * 262144 + (N_of_ascii b1 mod 64) * 4096
                       + (N_of_ascii b2 mod 64) * 64 + N_of_ascii b3 mod 64)%N in
            let c := (cp - 65536)%N in
            surrogate (55296 + c / 1024) :: surrogate (56320 + c mod 1024) :: units s4
        | _ => one
        end
  end.

Fixpoint indexed (i : nat) (us : list string) : list (string * value) :=
  match us with
  | [] => []
  | u :: us' => (pretty i, VStr u) :: indexed (S i) us'
  end.

(** The own enumerable properties of a string, from index [i] on: one per
    code unit, so ["ab"] has the properties ["0"] and ["1"]. *)
Definition chars (i : nat) (s : string) : list (string * value) :=
  indexed i (units s).

(** The own enumerable string-keyed properties that [Object.assign] copies
    from a source: those of an object, the indexed characters of a string,
    none for [undefined], [null], booleans and numbers. *)
Definition ownEnumerable (source : value) : obj :=
  match source with
  | VObj m => m
  | VStr s => list_to_map (chars 0 s)
  | VUndef | VNull | VBool _ | VNum _ => ∅
  end.

(** [Object.assign(target, source)]: the own properties of [target]
    afterwards.  Each own enumerable property of the source is written with
    an ordinary assignment [target[k] = v].  For every key but [__proto__]
    this sets an own property of the target.  For [__proto__] it does so
    only when the target already owns such a property; otherwise the
    assignment runs the setter that an object literal inherits, which gives
    the target no property.  (With an object or [null] the setter replaces
    the target's prototype.  Prototypes are not represented: the target is
    taken to inherit from [Object.prototype], so what is said of the key
    [__proto__] of a target holds as long as no such assignment came
    before.) *)
Definition Object_assign (target : obj) (source : value) : obj :=
  (if has "__proto__" target then ownEnumerable source
   else delete "__proto__" (ownEnumerable source)) ∪ target.

(** The values that own no enumerable property: [undefined], [null], the
    booleans, the numbers, the empty string and the empty object. *)
Definition propertyless (v : value) : Prop :=
  match v with
  | VObj m => m = ∅
  | VStr s => s = EmptyString
  | VUndef | VNull | VBool _ | VNum _ => True
  end.

(** How a promise settles. *)
Inductive settled : Type :=
  | Fulfilled (v : value)
  | Rejected (reason : value).

(** What one pass through a loop body does: go on to the next iteration with
    the loop's state, or leave the function. *)
Inductive step (A : Type) : Type :=
  | Next (acc : A)
  | Exit (k : completion).
Arguments Next {A} acc.
Arguments Exit {A} k.

End JS.

Import JS.

(** ** The builders' arrays of layers

    [ApiMiddlewareFactory] and [PageMiddlewareFactory] have the same
    constructor and the same [use]; they are embedded once, over the type [L]
    of the layers. *)

Module Factory.
Section Factory.
Context {L : Type}.

Definition loc := nat.

(** The arrays allocated so far. *)
Definition store := gmap loc (list L).

(** An instance: its private field [layers] refers to an array. *)
Record t := { layers : loc }.

Definition alloc (arr : list L) (σ : store) : loc * store :=
  let r := fresh (dom σ) in (r, <[r := arr]> σ).

(** [constructor(layers?) { this.layers = layers ?? []; }] *)
Definition constructor (arg : option loc) (σ : store) : t * store :=
  match arg with
  | Some r => ({| layers := r |}, σ)
  | None => let '(r, σ') := alloc [] σ in ({| layers := r |}, σ')
  end.

(** [use(layer) { return new Factory([...this.layers, layer]); }]
    [None] when [this.layers] is not an array of the store. *)
Definition use (this : t) (layer : L) (σ : store) : option (t * store) :=
  arr ← σ !! layers this;
  let '(r, σ') := alloc (arr ++ [layer]) σ in
  Some (constructor (Some r) σ').

(** The array [this.layers] refers to. *)
Definition chain (this : t) (σ : store) : option (list L) := σ !! layers this.
End Factory.
Arguments t : clear implicits.
Arguments store : clear implicits.
End Factory.

(** ** The api flavor: [src/api.ts] *)

Module Api.

(** The body of the loop of [handler], after [const result = await layer(..)]:
<<
  if (result === undefined) continue;
  if ("stop" in result && result.stop) return;
  if ("data" in result) Object.assign(data, result.data);
>>
    [in] throws a [TypeError] when [result] is neither [undefined] nor an
    object. *)
Definition step_layer (data : obj) (r : completion) : step obj :=
  match r with
  | Throw e => Exit (Throw e)
  | Return VUndef => Next data
  | Return (VObj result) =>
      if has "stop" result && truthy (get result "stop") then Exit (Return VUndef)
      else if has "data" result then Next (Object_assign data (get result "data"))
      else Next data
  | Return _ => Exit (Throw TypeError)
  end.

(** The properties that a layer's completion adds to a [data] that owns no
    [__proto__] property, when the loop goes on to the next layer. *)
Definition partial (r : completion) : obj :=
  match r with
  | Return (VObj result) => delete "__proto__" (ownEnumerable (get result "data"))
  | _ => ∅
  end.

(** The shapes that [ApiLayer] declares for a result object:
    [{ data: object }] and [StopRes = { stop: true }]. *)
Definition partial_shape (result : obj) : Prop := ∃ m, result !! "data" = Some (VObj m).
Definition terminal_shape (result : obj) : Prop := result !! "stop" = Some (VBool true).

(** [contributes r m]: the completion [r] of a layer is [undefined], or an
    object whose [stop] is absent or falsy and whose [data] is absent or an
    object, and [m] is the object under [data], the empty object when
    there is none. *)
Definition contributes (r : completion) (m : obj) : Prop :=
  (r = Return VUndef ∧ m = ∅)
  ∨ ∃ result, r = Return (VObj result)
      ∧ (∀ v, result !! "stop" = Some v → truthy v = false)
      ∧ (result !! "data" = Some (VObj m) ∨ (result !! "data" = None ∧ m = ∅)).

Section Api.
(** [Ctx] stands for the pair [(req, res)], [W] for the state of the
    outside world. *)
Context {Ctx W : Type}.

(** [ApiLayer<D>]: called with [{ req, res, data }]. *)
Definition ApiLayer : Type := Ctx → obj → W → W * completion.

(** The final function given to [handler]: called with [{ req, res, data }]. *)
Definition ApiFn : Type := Ctx → obj → W → W * completion.

Inductive callee : Type :=
  | Layer (l : ApiLayer)
  | Final.

(** A call made by a run: what was called, the content of [data] it was
    handed, and how it completed. *)
Record call := { target : callee; seen : obj; returned : completion }.

(** The state when the [for] loop is left: [lp_exit] is [None] when the loop
    ran to its end, and the completion of [handler]'s closure when the loop
    returned or threw. *)
Record loop := {
  lp_world : W;
  lp_calls : list call;
  lp_data : obj;
  lp_exit : option completion
}.

Definition logged (c : call) (lp : loop) : loop :=
  {| lp_world := lp_world lp; lp_calls := c :: lp_calls lp;
     lp_data := lp_data lp; lp_exit := lp_exit lp |}.

(** [for (const layer of this.layers) { ... }] *)
Fixpoint run_layers (layers : list ApiLayer) (c : Ctx) (data : obj) (w : W) : loop :=
  match layers with
  | [] => {| lp_world := w; lp_calls := []; lp_data := data; lp_exit := None |}
  | layer :: rest =>
      let '(w', r) := layer c data w in
      let this_call := {| target := Layer layer; seen := data; returned := r |} in
      match step_layer data r with
      | Next data' => logged this_call (run_layers rest c data' w')
      | Exit k =>
          {| lp_world := w'; lp_calls := [this_call]; lp_data := data;
             lp_exit := Some k |}
      end
  end.

(** One invocation of a compiled handler. *)
Record run := {
  world : W;
  calls : list call;
  data_at_end : obj;
  outcome : completion
}.

(** The closure that [handler(fn)] returns, given the array [this.layers]:
<<
const data = {};
for (const layer of this.layers) { ... }
return await fn({ req, res, data });
>> *)
Definition handler_body (layers : list ApiLayer) (fn : ApiFn) (c : Ctx) (w : W) : run :=
  let lp := run_layers layers c ∅ w in
  match lp_exit lp with
  | Some k =>
      {| world := lp_world lp; calls := lp_calls lp;
         data_at_end := lp_data lp; outcome := k |}
  | None =>
      let '(w', r) := fn c (lp_data lp) (lp_world lp) in
      {| world := w';
         calls := lp_calls lp ++ [{| target := Final; seen := lp_data lp; returned := r |}];
         data_at_end := lp_data lp; outcome := r |}
  end.

(** class [ApiMiddlewareFactory] *)
Definition ApiMiddlewareFactory := Factory.t.
Definition store := Factory.store ApiLayer.

Definition use (this : ApiMiddlewareFactory) (layer : ApiLayer) (σ : store)
  : option (ApiMiddlewareFactory * store) := Factory.use this layer σ.

(** A compiled handler: the arrow function of [handler], which captured
    [this] and [fn]. *)
Record compiled := { h_this : ApiMiddlewareFactory; h_fn : ApiFn }.

Definition handler (this : ApiMiddlewareFactory) (fn : ApiFn) : compiled :=
  {| h_this := this; h_fn := fn |}.

(** Calling a compiled handler with [(req, res)]: [this.layers] is read when
    the call is made.  [None] when it is not an array of the store. *)
Definition invoke (h : compiled) (σ : store) (c : Ctx) (w : W) : option run :=
  layers ← Factory.chain (h_this h) σ;
  Some (handler_body layers (h_fn h) c w).

(** [apiMiddleware = () => new ApiMiddlewareFactory()] *)
Definition apiMiddleware (σ : store) : ApiMiddlewareFactory * store :=
  Factory.constructor None σ.

(** [apiLayer = (layer) => layer] *)
Definition apiLayer (layer : ApiLayer) : ApiLayer := layer.

(** [apiLayerWithContext = () => (layer) => layer] *)
Definition apiLayerWithContext (layer : ApiLayer) : ApiLayer := layer.
End Api.
Arguments ApiLayer : clear implicits.
Arguments ApiFn : clear implicits.
Arguments call : clear implicits.
Arguments callee : clear implicits.
Arguments loop : clear implicits.
Arguments run : clear implicits.
Arguments compiled : clear implicits.
Arguments store : clear implicits.
End Api.

(** ** The page flavor: [src/pages.ts] *)

Module Page.

(** The two accumulators of a run. *)
Record accs := { data : obj; props : obj }.

Definition empty_accs : accs := {| data := ∅; props := ∅ |}.

(** ["notFound" in res || "redirect" in res] for an object [res]. *)
Definition ends (res : obj) : bool := has "notFound" res || has "redirect" res.

(** The body of the loop of [handler], after [const res = await layer(..)]:
<<
  if ("notFound" in res || "redirect" in res) return res;
  if (res.data) Object.assign(data, res.data);
  if (res.props) Object.assign(props, res.props);
>>
    [in] throws a [TypeError] when [res] is not an object. *)
Definition step_layer (a : accs) (r : completion) : step accs :=
  match r with
  | Throw e => Exit (Throw e)
  | Return (VObj res) =>
      if ends res then Exit (Return (VObj res))
      else
        let data' :=
          if truthy (get res "data") then Object_assign (data a) (get res "data")
          else data a in
        let props' :=
          if truthy (get res "props") then Object_assign (props a) (get res "props")
          else props a in
        Next {| data := data'; props := props' |}
  | Return _ => Exit (Throw TypeError)
  end.

(** How the call of a final handler completes.  Its result type is
    [GetStaticPropsResult], or [GetServerSidePropsResult], in which [props]
    is [P | Promise<P>].  [Done k] is a completion with values of the model;
    [Promising res p] is the return of an object whose [props] property
    holds a promise that settles as [p] and whose other own properties are
    those of [res] (an entry of [res] under [props] is not looked at). *)
Inductive result : Type :=
  | Done (k : completion)
  | Promising (res : obj) (p : settled).
#[local] Coercion Done : completion >-> result.

(** [Object.assign(props, v); return { props }], the end of the closure once
    [await res.props] has given [v]. *)
Definition assign_and_return (a : accs) (v : value) : accs * result :=
  let props' := Object_assign (props a) v in
  ({| data := data a; props := props' |}, Done (Return (VObj {[ "props" := VObj props' ]}))).

(** The body of [if (fn) { ... }], after [const res = await fn(..)], followed
    by the last statement of the closure:
<<
  if ("notFound" in res || "redirect" in res) return res;
  Object.assign(props, await res.props);
  }
  return { props };
>>
    The result is the completion of the closure and the accumulators
    afterwards.  [await res.props] is [res.props] itself when that is a
    value of the model; on a promise it is what the promise is fulfilled
    with, or a throw of the reason it is rejected with. *)
Definition step_final (a : accs) (r : result) : accs * result :=
  match r with
  | Done (Throw e) => (a, Done (Throw e))
  | Done (Return (VObj res)) =>
      if ends res then (a, Done (Return (VObj res)))
      else assign_and_return a (get res "props")
  | Done (Return _) => (a, Done (Throw TypeError))
  | Promising res p =>
      if ends res then (a, Promising res p)
      else
        match p with
        | Fulfilled v => assign_and_return a v
        | Rejected e => (a, Done (Throw e))
        end
  end.

(** The properties that a call's completion adds to a [data] and to a
    [props] that own no [__proto__] property, when the loop goes on to the
    next layer. *)
Definition partial_data (r : result) : obj :=
  match r with
  | Done (Return (VObj res)) => delete "__proto__" (ownEnumerable (get res "data"))
  | _ => ∅
  end.

Definition partial_props (r : result) : obj :=
  match r with
  | Done (Return (VObj res)) => delete "__proto__" (ownEnumerable (get res "props"))
  | _ => ∅
  end.

(** The shapes that [Layer] declares for a result object:
    [{ data?: object; props?: object }] and
    [RedirectRes = { notFound: true } | { redirect: Redirect }]. *)
Definition optional_object (res : obj) (k : string) : Prop :=
  res !! k = None ∨ res !! k = Some VUndef ∨ ∃ m, res !! k = Some (VObj m).
Definition partial_shape (res : obj) : Prop :=
  optional_object res "data" ∧ optional_object res "props".
Definition terminal_shape (res : obj) : Prop :=
  res !! "notFound" = Some (VBool true) ∨ ∃ m, res !! "redirect" = Some (VObj m).

(** [contributes r md mp]: the completion [r] of a call is an object with
    neither a [notFound] nor a [redirect] key, whose [data] and [props] are
    absent or objects, and [md] and [mp] are the objects under [data] and
    under [props], the empty object where there is none. *)
Definition holds (res : obj) (k : string) (m : obj) : Prop :=
  res !! k = Some (VObj m) ∨ (res !! k = None ∧ m = ∅).
Definition contributes (r : result) (md mp : obj) : Prop :=
  ∃ res, r = Done (Return (VObj res))
    ∧ res !! "notFound" = None ∧ res !! "redirect" = None
    ∧ holds res "data" md ∧ holds res "props" mp.

Section Page.
(** [Ctx] stands for [GetServerSidePropsContext] or [GetStaticPropsContext],
    [W] for the state of the outside world. *)
Context {Ctx W : Type}.

(** [Layer<Ctx, D, P>]: called with [{ ctx, data, props }]. *)
Definition Layer : Type := Ctx → accs → W → W * completion.

(** The optional final function of [handler]. *)
Definition PageFn : Type := Ctx → accs → W → W * result.

(** A function whose completions are completions with values of the model,
    taken as a final function. *)
Definition as_final (f : Layer) : PageFn :=
  λ c a w, let '(w', k) := f c a w in (w', Done k).

Inductive callee : Type :=
  | Called (l : Layer)
  | Final.

Record call := { target : callee; seen : accs; returned : result }.

Record loop := {
  lp_world : W;
  lp_calls : list call;
  lp_accs : accs;
  lp_exit : option completion
}.

Definition logged (c : call) (lp : loop) : loop :=
  {| lp_world := lp_world lp; lp_calls := c :: lp_calls lp;
     lp_accs := lp_accs lp; lp_exit := lp_exit lp |}.

(** [for (const layer of this.layers) { ... }] *)
Fixpoint run_layers (layers : list Layer) (c : Ctx) (a : accs) (w : W) : loop :=
  match layers with
  | [] => {| lp_world := w; lp_calls := []; lp_accs := a; lp_exit := None |}
  | layer :: rest =>
      let '(w', r) := layer c a w in
      let this_call := {| target := Called layer; seen := a; returned := Done r |} in
      match step_layer a r with
      | Next a' => logged this_call (run_layers rest c a' w')
      | Exit k =>
          {| lp_world := w'; lp_calls := [this_call]; lp_accs := a;
             lp_exit := Some k |}
      end
  end.

Record run := {
  world : W;
  calls : list call;
  accs_at_end : accs;
  outcome : result
}.

(** The closure that [handler(fn?)] returns, given the array [this.layers]:
<<
const data = {};
const props = {};
for (const layer of this.layers) { ... }
if (fn) { ... }
return { props };
>> *)
Definition handler_body (layers : list Layer) (fn : option PageFn) (c : Ctx) (w : W) : run :=
  let lp := run_layers layers c empty_accs w in
  match lp_exit lp with
  | Some k =>
      {| world := lp_world lp; calls := lp_calls lp;
         accs_at_end := lp_accs lp; outcome := Done k |}
  | None =>
      match fn with
      | Some f =>
          let '(w', r) := f c (lp_accs lp) (lp_world lp) in
          let '(a', k) := step_final (lp_accs lp) r in
          {| world := w';
             calls := lp_calls lp ++ [{| target := Final; seen := lp_accs lp; returned := r |}];
             accs_at_end := a'; outcome := k |}
      | None =>
          {| world := lp_world lp; calls := lp_calls lp;
             accs_at_end := lp_accs lp;
             outcome := Done (Return (VObj {[ "props" := VObj (props (lp_accs lp)) ]})) |}
      end
  end.

(** class [PageMiddlewareFactory] *)
Definition PageMiddlewareFactory := Factory.t.
Definition store := Factory.store Layer.

Definition use (this : PageMiddlewareFactory) (layer : Layer) (σ : store)
  : option (PageMiddlewareFactory * store) := Factory.use this layer σ.

Record compiled := { h_this : PageMiddlewareFactory; h_fn : option PageFn }.

Definition handler (this : PageMiddlewareFactory) (fn : option PageFn) : compiled :=
  {| h_this := this; h_fn := fn |}.

Definition invoke (h : compiled) (σ : store) (c : Ctx) (w : W) : option run :=
  layers ← Factory.chain (h_this h) σ;
  Some (handler_body layers (h_fn h) c w).

(** [serverMiddleware = () => new PageMiddlewareFactory<"ServerSideProps">()] *)
Definition serverMiddleware (σ : store) : PageMiddlewareFactory * store :=
  Factory.constructor None σ.

(** [staticMiddleware = () => new PageMiddlewareFactory<"StaticProps">()] *)
Definition staticMiddleware (σ : store) : PageMiddlewareFactory * store :=
  Factory.constructor None σ.

(** [serverLayer], [staticLayer] and the [...WithContext] variants return
    the layer they are given. *)
Definition serverLayer (layer : Layer) : Layer := layer.
Definition serverLayerWithContext (layer : Layer) : Layer := layer.
Definition staticLayer (layer : Layer) : Layer := layer.
Definition staticLayerWithContext (layer : Layer) : Layer := layer.
End Page.
Arguments Layer : clear implicits.
Arguments PageFn : clear implicits.
Arguments call : clear implicits.
Arguments callee : clear implicits.
Arguments loop : clear implicits.
Arguments run : clear implicits.
Arguments compiled : clear implicits.
Arguments store : clear implicits.
End Page.

(** A completion is read as a final handler's result, and a function with
    such completions as a final function, wherever one is expected, also
    inside a pair or an option. *)
Coercion Page.Done : completion >-> Page.result.
Coercion Page.as_final : Page.Layer >-> Page.PageFn.
Arguments Some {A} & a.
Arguments pair {A B} & a b.

(** ** Chained calls of [use]

    [this.use(l1).use(l2)...use(ln)], as the tests and the documentation
    comments write their middleware. *)

Module Chained.
Section Chained.
Context {L : Type}.

Fixpoint use_all (this : Factory.t) (ls : list L) (σ : Factory.store L)
    : option (Factory.t * Factory.store L) :=
  match ls with
  | [] => Some (this, σ)
  | l :: rest =>
      match Factory.use this l σ with
      | Some (this', σ') => use_all this' rest σ'
      | None => None
      end
  end.
End Chained.
End Chained.

(** ** Sample chains

    Layers in the manner of the repository's tests.  The context is [unit]
    and the world is the list of the names of the functions that ran. *)

Module Sample.

Definition api_layer (name : string) (r : completion) : Api.ApiLayer unit (list string) :=
  λ _ _ w, (w ++ [name], r).

Definition page_layer (name : string) (r : completion) : Page.Layer unit (list string) :=
  λ _ _ w, (w ++ [name], r).

(** [{ data: { k: v } }], [{ props: { k: v } }] and [{ k: v }] *)
Definition data_of (k : string) (v : value) : value :=
  VObj {[ "data" := VObj {[ k := v ]} ]}.
Definition props_of (k : string) (v : value) : value :=
  VObj {[ "props" := VObj {[ k := v ]} ]}.
Definition only (k : string) (v : value) : value := VObj {[ k := v ]}.

(** A layer that does not look at the world and returns what data it saw. *)
Definition api_echo : Api.ApiLayer unit (list string) :=
  λ _ d w, (w, Return (VObj {[ "data" := VObj {[ "seen" := VObj d ]} ]})).

(** The chains of the tests "Dont call next layers" and "multiple layers". *)
Definition api_a := api_layer "L0" (Return (data_of "a" (VStr "a"))).
Definition api_stop := api_layer "L1" (Return (only "stop" (VBool true))).
Definition api_b := api_layer "L2" (Return (data_of "b" (VStr "b"))).
Definition api_final := api_layer "H" (Return VUndef).

Definition page_other := page_layer "L0" (Return (props_of "other" (VNum 0))).
Definition page_notFound := page_layer "L1" (Return (only "notFound" (VBool true))).
Definition page_redirect := page_layer "L2" (Return (only "redirect" (VStr "/"))).
Definition page_final := page_layer "H" (Return (props_of "b" (VStr "b"))).

(** Layers of the tests "overwrite types" and "overwrite values". *)
Definition api_value (v : value) := api_layer "value" (Return (data_of "value" v)).
Definition api_empty := api_layer "empty" (Return VUndef).
Definition page_a (v : value) := page_layer "a" (Return (props_of "a" v)).
Definition page_b := page_layer "b" (Return (props_of "b" (VStr "b"))).

(** The test "Can reuse middlware without mixing layers": the store after
    [const middleware = apiMiddleware().use(layer1)], and the layers of the
    two branches. *)
Definition layer1 := api_layer "layer1" (Return (data_of "layer1" (VBool true))).
Definition layer2 := api_layer "layer2" (Return (data_of "layer2" (VBool true))).
Definition layer3 := api_layer "layer3" (Return (data_of "layer3" (VBool true))).
Definition middleware : Api.ApiMiddlewareFactory := {| Factory.layers := 1 |}.
Definition middleware_store : Api.store unit (list string) :=
  {[ 0 := []; 1 := [layer1] ]}.

Definition page_layer1 := page_layer "layer1" (Return (data_of "layer1" (VBool true))).
Definition page_layer2 := page_layer "layer2" (Return (data_of "layer2" (VBool true))).
Definition page_layer3 := page_layer "layer3" (Return (data_of "layer3" (VBool true))).
Definition page_middleware_store : Page.store unit (list string) :=
  {[ 0 := []; 1 := [page_layer1] ]}.

Definition page_middleware : Page.PageMiddlewareFactory := {| Factory.layers := 1 |}.

(** Layers that return nothing, or an object the engine has no use for. *)
Definition page_void := page_layer "void" (Return VUndef).
Definition page_bare := page_layer "bare" (Return (VObj ∅)).
Definition api_odd := api_layer "odd" (Return (only "status" (VNum 200))).
Definition page_odd := page_layer "odd" (Return (only "status" (VNum 200))).

(** The test "overwrite layer props with handler response props". *)
Definition handler_props : obj :=
  {[ "props" := VObj {[ "a" := VStr "a2"; "b" := VStr "b" ]} ]}.
Definition page_final_ab := page_layer "H" (Return (VObj handler_props)).

(** Final handlers whose [props] is a promise: one that is fulfilled with
    the props of the test above, one that is rejected. *)
Definition page_final_promising : Page.PageFn unit (list string) :=
  λ _ _ w, (w ++ ["H"],
            Page.Promising ∅ (Fulfilled (VObj {[ "a" := VStr "a2"; "b" := VStr "b" ]}))).
Definition page_final_rejecting : Page.PageFn unit (list string) :=
  λ _ _ w, (w ++ ["H"], Page.Promising ∅ (Rejected (VStr "boom"))).

(** Results that match none of the shapes the layer types declare. *)
Definition api_text := api_layer "text" (Return (VObj {[ "data" := VStr "hi" ]})).
Definition api_stop_one := api_layer "one" (Return (only "stop" (VNum 1))).
Definition page_notFound_false_data :=
  page_layer "nf" (Return (VObj {[ "notFound" := VBool false; "data" := VNum 5 ]})).
Definition page_null :=
  page_layer "null" (Return (VObj {[ "data" := VNull; "props" := VNum 7 ]})).


(** A layer whose contribution depends on the data it is handed:
    [({ data }) => ({ data: { b: data.a } })]. *)
Definition api_copy : Api.ApiLayer unit (list string) :=
  λ _ d w, (w ++ ["copy"], Return (VObj {[ "data" := VObj {[ "b" := get d "a" ]} ]})).

(** Layers of the tests "combine different keys". *)
Definition api_c := api_layer "L3" (Return (data_of "c" (VStr "c"))).
Definition page_data_a := page_layer "a" (Return (data_of "a" (VStr "a"))).
Definition page_props_b := page_layer "b" (Return (props_of "b" (VStr "b"))).

(** Layers that fail: one throws, the others return something that is
    neither [undefined] nor an object. *)
Definition api_throw := api_layer "boom" (Throw (VStr "boom")).
Definition page_throw := page_layer "boom" (Throw (VStr "boom")).
Definition api_null := api_layer "null" (Return VNull).
Definition page_num := page_layer "num" (Return (VNum 7)).

(** The calls of the run of [[api_a; api_empty; api_b]] with [api_final],
    and of [[page_a "a1"; page_b]] without a final handler. *)
Definition call_a : Api.call unit (list string) :=
  {| Api.target := Api.Layer api_a; Api.seen := ∅;
     Api.returned := Return (data_of "a" (VStr "a")) |}.
Definition call_empty : Api.call unit (list string) :=
  {| Api.target := Api.Layer api_empty; Api.seen := {[ "a" := VStr "a" ]};
     Api.returned := Return VUndef |}.
Definition call_b : Api.call unit (list string) :=
  {| Api.target := Api.Layer api_b; Api.seen := {[ "a" := VStr "a" ]};
     Api.returned := Return (data_of "b" (VStr "b")) |}.
Definition call_final : Api.call unit (list string) :=
  {| Api.target := Api.Final;
     Api.seen := {[ "a" := VStr "a"; "b" := VStr "b" ]};
     Api.returned := Return VUndef |}.
Definition page_call_a : Page.call unit (list string) :=
  {| Page.target := Page.Called (page_a (VStr "a1")); Page.seen := Page.empty_accs;
     Page.returned := Return (props_of "a" (VStr "a1")) |}.
Definition page_call_b : Page.call unit (list string) :=
  {| Page.target := Page.Called page_b;
     Page.seen := {| Page.data := ∅; Page.props := {[ "a" := VStr "a1" ]} |};
     Page.returned := Return (props_of "b" (VStr "b")) |}.
Definition page_call_b2 : Page.call unit (list string) :=
  {| Page.target := Page.Called page_b;
     Page.seen := {| Page.data := ∅;
                     Page.props := {[ "a" := VStr "a1"; "b" := VStr "b" ]} |};
     Page.returned := Return (props_of "b" (VStr "b")) |}.

(** A partial that owns a [__proto__] property, as [JSON.parse] makes one. *)
Definition with_proto : obj := {[ "__proto__" := VNum 5; "k" := VNum 1 ]}.
Definition api_proto := api_layer "proto" (Return (VObj {[ "data" := VObj with_proto ]})).
Definition page_proto := page_layer "proto" (Return (VObj {[ "props" := VObj with_proto ]})).


End Sample.

(** Pairwise disjointness of a list of given maps, by evaluation. *)
Ltac disjoint_list_by_eval :=
  repeat first
    [ apply map_disjoint_list_nil
    | apply Forall_nil_2
    | apply map_disjoint_list_cons_2
    | apply Forall_cons_2
    | compute_done ].

(** A goal [Api.contributes r m] or [Page.contributes r md mp] on given
    completions and objects, by evaluation. *)
Ltac contributes_by_eval :=
  first
    [ left; split; reflexivity
    | right; eexists; split; [reflexivity |]; split;
      [ intros ? Hv; vm_compute in Hv; discriminate
      | first [ left; vm_compute; reflexivity
              | right; split; vm_compute; reflexivity ] ]
    | eexists; split; [reflexivity |];
      split; [vm_compute; reflexivity |]; split; [vm_compute; reflexivity |];
      split;
        first [ left; vm_compute; reflexivity
              | right; split; vm_compute; reflexivity ] ].

(** * Properties *)

(** ** The repository's tests, run on the embedding *)

(** "Dont call next layers" and "Dont call next handler" *)
Example test_stop_ends_the_request :
  Api.world (Api.handler_body [Sample.api_stop; Sample.api_b] Sample.api_final () [])
  = ["L1"].
Proof. reflexivity. Qed.

(** "Does continue without `{ stop: true }`" *)
Example test_continue_without_stop :
  Api.world (Api.handler_body [Sample.api_empty] Sample.api_final () [])
  = ["empty"; "H"].
Proof. reflexivity. Qed.

(** "combine different keys" (api): the data that the final handler is handed *)
Example test_combine_different_keys :
  Api.seen <$> last (Api.calls (Api.handler_body
    [Sample.api_a; Sample.api_empty; Sample.api_b; Sample.api_c] Sample.api_final () []))
  = Some {[ "a" := VStr "a"; "b" := VStr "b"; "c" := VStr "c" ]}.
Proof. vm_compute. reflexivity. Qed.

(** "overwrite types" (api) *)
Example test_overwrite_types :
  Api.data_at_end (Api.handler_body
    [Sample.api_value (VStr ""); Sample.api_empty; Sample.api_value (VNum 0);
     Sample.api_value (VBool false); Sample.api_value (VNum 1)] Sample.api_final () [])
  = {[ "value" := VNum 1 ]}.
Proof. vm_compute. reflexivity. Qed.

(** "`notFound` always passes through", multiple layers *)
Example test_notFound_passes_through :
  Page.outcome (Page.handler_body
    [Sample.page_other; Sample.page_notFound; Sample.page_redirect]
    (Some Sample.page_final) () [])
  = Return (Sample.only "notFound" (VBool true)).
Proof. reflexivity. Qed.

(** "add layer props to handler response" *)
Example test_add_layer_props :
  Page.outcome (Page.handler_body [Sample.page_a (VStr "a")] (Some Sample.page_final) () [])
  = Return (VObj {[ "props" := VObj {[ "a" := VStr "a"; "b" := VStr "b" ]} ]}).
Proof. vm_compute. reflexivity. Qed.

(** [Object.assign] from a string copies its characters under their indices. *)
Example assign_from_string :
  Object_assign {[ "a" := VNull ]} (VStr "hi")
  = {[ "a" := VNull; "0" := VStr "h"; "1" := VStr "i" ]}.
Proof. vm_compute. reflexivity. Qed.

(** A character of the basic plane is one code unit, so one property; a
    character beyond it is two, the surrogates. *)
Example assign_from_string_units :
  Object_assign ∅ (VStr "é") = {[ "0" := VStr "é" ]}
  ∧ Object_assign ∅ (VStr "a😀")
    = {[ "0" := VStr "a"; "1" := VStr (surrogate 55357); "2" := VStr (surrogate 56832) ]}.
Proof. split; vm_compute; reflexivity. Qed.

(** An own [__proto__] property of the source is not copied to a target that
    owns none, and is assigned like any other on a target that owns one. *)
Example assign_own_proto :
  Object_assign {[ "a" := VNull ]} (VObj Sample.with_proto)
  = {[ "a" := VNull; "k" := VNum 1 ]}
  ∧ Object_assign {[ "__proto__" := VNull ]} (VObj Sample.with_proto)
    = {[ "__proto__" := VNum 5; "k" := VNum 1 ]}.
Proof. split; vm_compute; reflexivity. Qed.

(** A final handler whose [props] is a promise: the handler's result holds
    what the promise is fulfilled with. *)
Example test_promised_props :
  Page.outcome (Page.handler_body [Sample.page_a (VStr "a1")]
                  (Some Sample.page_final_promising) () [])
  = Return (VObj {[ "props" := VObj {[ "a" := VStr "a2"; "b" := VStr "b" ]} ]}).
Proof. vm_compute. reflexivity. Qed.

(** ** Operators *)

Lemma has_true (k : string) (o : obj) : has k o = true ↔ is_Some (o !! k).
Proof. unfold has. apply bool_decide_eq_true. Qed.

Lemma has_false (k : string) (o : obj) : has k o = false ↔ o !! k = None.
Proof. unfold has. rewrite bool_decide_eq_false. symmetry. apply eq_None_not_Some. Qed.

Lemma get_Some (o : obj) (k : string) (v : value) : o !! k = Some v → get o k = v.
Proof. unfold get. by intros ->. Qed.

Lemma get_None (o : obj) (k : string) : o !! k = None → get o k = VUndef.
Proof. unfold get. by intros ->. Qed.

Lemma ownEnumerable_falsy (v : value) : truthy v = false → ownEnumerable v = ∅.
Proof.
  destruct v as [| |b|z|s|m]; simpl; try done.
  destruct s; [done | discriminate].
Qed.

(** On a target that owns no [__proto__] property, [Object.assign] adds the
    source's properties but [__proto__], and the target still owns none. *)
Lemma Object_assign_plain (target : obj) (source : value) :
  target !! "__proto__" = None →
  Object_assign target source = delete "__proto__" (ownEnumerable source) ∪ target.
Proof. intros Hp. unfold Object_assign. apply has_false in Hp. by rewrite Hp. Qed.

Lemma union_plain (m d : obj) :
  d !! "__proto__" = None → (delete "__proto__" m ∪ d) !! "__proto__" = None.
Proof. intros Hd. apply lookup_union_None. split; [apply lookup_delete_eq | done]. Qed.

Lemma Object_assign_stays_plain (target : obj) (source : value) :
  target !! "__proto__" = None → Object_assign target source !! "__proto__" = None.
Proof. intros Hp. rewrite (Object_assign_plain _ _ Hp). by apply union_plain. Qed.



Lemma Object_assign_nothing (target : obj) (source : value) :
  ownEnumerable source = ∅ → Object_assign target source = target.
Proof.
  intros Hf. unfold Object_assign. rewrite Hf, delete_empty.
  destruct (has "__proto__" target); apply (left_id_L ∅ (∪)).
Qed.

Lemma Object_assign_falsy (target : obj) (source : value) :
  truthy source = false → Object_assign target source = target.
Proof. intros Hf. by apply Object_assign_nothing, ownEnumerable_falsy. Qed.

Lemma Object_assign_propertyless (target : obj) (source : value) :
  propertyless source → Object_assign target source = target.
Proof.
  intros Hp. apply Object_assign_nothing.
  destruct source as [| |b|z|s|m]; simpl in *; try done. by rewrite Hp.
Qed.

Lemma guarded_assign (target : obj) (source : value) :
  (if truthy source then Object_assign target source else target)
  = Object_assign target source.
Proof.
  destruct (truthy source) eqn:Ht; [done |]. by rewrite Object_assign_falsy.
Qed.

(** ** The api loop *)

Section ApiFacts.
Context {Ctx W : Type}.
Implicit Types (l : Api.ApiLayer Ctx W) (ls pre post : list (Api.ApiLayer Ctx W)).
Implicit Types (fn : Api.ApiFn Ctx W) (c : Ctx) (w : W) (d : obj).

Lemma api_step_partial d r d' :
  d !! "__proto__" = None →
  Api.step_layer d r = Next d' → d' = Api.partial r ∪ d.
Proof.
  intros Hp. unfold Api.step_layer, Api.partial.
  destruct r as [[| |b|z|s|o]|e]; try discriminate.
  - intros [= <-]. by rewrite (left_id_L ∅ (∪)).
  - destruct (has "stop" o && truthy (get o "stop")); [discriminate |].
    destruct (has "data" o) eqn:Hd; intros [= <-]; [by apply Object_assign_plain |].
    apply has_false in Hd. rewrite (get_None _ _ Hd). simpl.
    by rewrite delete_empty, (left_id_L ∅ (∪)).
Qed.

Lemma api_partial_plain d r :
  d !! "__proto__" = None → (Api.partial r ∪ d) !! "__proto__" = None.
Proof.
  intros Hp. unfold Api.partial.
  destruct r as [[| |b|z|s|o]|e]; rewrite ?(left_id_L ∅ (∪)); try done.
  by apply union_plain.
Qed.

(** A [data] that owns no [__proto__] property owns none after a layer. *)
Lemma api_step_plain d r d' :
  d !! "__proto__" = None → Api.step_layer d r = Next d' → d' !! "__proto__" = None.
Proof.
  intros Hp Hs. rewrite (api_step_partial _ _ _ Hp Hs). by apply api_partial_plain.
Qed.

(** Running a chain [pre ++ post]: when the loop leaves the function within
    [pre], [post] plays no part; otherwise the loop goes through [post] from
    the state that [pre] left. *)
Lemma api_run_layers_app pre post c d w :
  Api.run_layers (pre ++ post) c d w =
    let lp := Api.run_layers pre c d w in
    match Api.lp_exit lp with
    | Some _ => lp
    | None =>
        let lp2 := Api.run_layers post c (Api.lp_data lp) (Api.lp_world lp) in
        {| Api.lp_world := Api.lp_world lp2;
           Api.lp_calls := Api.lp_calls lp ++ Api.lp_calls lp2;
           Api.lp_data := Api.lp_data lp2;
           Api.lp_exit := Api.lp_exit lp2 |}
    end.
Proof.
  revert d w. induction pre as [|l pre IH]; intros d w; simpl.
  - by destruct (Api.run_layers post c d w).
  - destruct (l c d w) as [w' r]. destruct (Api.step_layer d r) as [d'|k]; [| done].
    rewrite IH. simpl.
    destruct (Api.lp_exit (Api.run_layers pre c d' w')); done.
Qed.

(** The calls of the loop are calls to the layers of the chain, in chain
    order, from its first layer on. *)
Lemma api_calls_prefix ls c d w :
  ∃ n, Api.target <$> Api.lp_calls (Api.run_layers ls c d w) = Api.Layer <$> take n ls.
Proof.
  revert d w. induction ls as [|l ls IH]; intros d w; simpl.
  - by exists 0.
  - destruct (l c d w) as [w' r]. destruct (Api.step_layer d r) as [d'|k].
    + destruct (IH d' w') as [n Hn]. exists (S n).
      cbn [Api.logged Api.lp_calls take]. by rewrite !fmap_cons, Hn.
    + by exists 1.
Qed.

(** When the loop runs to its end every layer was called. *)
Lemma api_calls_all ls c d w :
  Api.lp_exit (Api.run_layers ls c d w) = None →
  Api.target <$> Api.lp_calls (Api.run_layers ls c d w) = Api.Layer <$> ls.
Proof.
  revert d w. induction ls as [|l ls IH]; intros d w; simpl; [done |].
  destruct (l c d w) as [w' r]. destruct (Api.step_layer d r) as [d'|k]; [| done].
  cbn [Api.logged Api.lp_calls Api.lp_exit]. intros Hx.
  by rewrite !fmap_cons, IH.
Qed.

(** The loop runs to its end exactly when every call it made lets it go on. *)
Lemma api_exit_None ls c d w :
  Api.lp_exit (Api.run_layers ls c d w) = None ↔
  Forall (λ cl, ∃ d', Api.step_layer (Api.seen cl) (Api.returned cl) = Next d')
         (Api.lp_calls (Api.run_layers ls c d w)).
Proof.
  revert d w. induction ls as [|l ls IH]; intros d w; simpl.
  - split; [constructor | done].
  - destruct (l c d w) as [w' r]. destruct (Api.step_layer d r) as [d'|k] eqn:Hs; simpl.
    + rewrite IH, Forall_cons. simpl. split; [| tauto].
      intros HF. split; [by exists d' | done].
    + split; [done |]. rewrite Forall_cons. simpl. intros [[d' Hd'] _].
      rewrite Hs in Hd'. discriminate.
Qed.

(** When the loop runs to its end, [data] holds the partials of the calls,
    assigned in order on top of its initial content. *)
Lemma api_data_fold ls c d w :
  d !! "__proto__" = None →
  Api.lp_exit (Api.run_layers ls c d w) = None →
  Api.lp_data (Api.run_layers ls c d w) =
    foldl (λ acc cl, Api.partial (Api.returned cl) ∪ acc) d
          (Api.lp_calls (Api.run_layers ls c d w)).
Proof.
  revert d w. induction ls as [|l ls IH]; intros d w Hp; simpl; [done |].
  destruct (l c d w) as [w' r]. destruct (Api.step_layer d r) as [d'|k] eqn:Hs; [| done].
  simpl. intros Hx. rewrite (IH _ _ (api_step_plain _ _ _ Hp Hs) Hx).
  by rewrite (api_step_partial _ _ _ Hp Hs).
Qed.

(** The loop keeps [data] without a [__proto__] property, in what it hands to
    the layers and in what it leaves. *)
Lemma api_loop_plain ls c d w :
  d !! "__proto__" = None →
  Api.lp_data (Api.run_layers ls c d w) !! "__proto__" = None ∧
  Forall (λ cl, Api.seen cl !! "__proto__" = None)
         (Api.lp_calls (Api.run_layers ls c d w)).
Proof.
  revert d w. induction ls as [|l ls IH]; intros d w Hp; simpl; [by split |].
  destruct (l c d w) as [w' r]. destruct (Api.step_layer d r) as [d'|k] eqn:Hs; simpl.
  - destruct (IH d' w' (api_step_plain _ _ _ Hp Hs)) as [H1 H2].
    split; [done |]. by constructor.
  - split; [done |]. by repeat constructor.
Qed.

Lemma api_handler_data ls fn c w :
  Api.data_at_end (Api.handler_body ls fn c w) = Api.lp_data (Api.run_layers ls c ∅ w).
Proof.
  unfold Api.handler_body.
  destruct (Api.lp_exit (Api.run_layers ls c ∅ w)); [done |].
  by destruct (fn c _ _).
Qed.

End ApiFacts.


(** Assigning partials never removes a key. *)
Lemma foldl_assign_keeps {A} (part : A → obj) (xs : list A) (d : obj) (k : string) :
  is_Some (d !! k) → is_Some (foldl (λ acc y, part y ∪ acc) d xs !! k).
Proof.
  revert d. induction xs as [|x xs IH]; intros d Hd; simpl; [done |].
  apply IH. rewrite lookup_union_is_Some. by right.
Qed.

(** ** The page loop *)

Section PageFacts.
Context {Ctx W : Type}.
Implicit Types (l : Page.Layer Ctx W) (ls pre post : list (Page.Layer Ctx W)).
Implicit Types (fn : option (Page.PageFn Ctx W)) (c : Ctx) (w : W) (a : Page.accs).

Lemma page_ends_true (res : obj) :
  Page.ends res = true ↔ is_Some (res !! "notFound") ∨ is_Some (res !! "redirect").
Proof. unfold Page.ends. by rewrite orb_true_iff, !has_true. Qed.

Lemma page_ends_false (res : obj) :
  Page.ends res = false ↔ res !! "notFound" = None ∧ res !! "redirect" = None.
Proof. unfold Page.ends. by rewrite orb_false_iff, !has_false. Qed.

Lemma page_step_object a (res : obj) :
  Page.ends res = false →
  Page.step_layer a (Return (VObj res)) =
    Next {| Page.data := Object_assign (Page.data a) (get res "data");
            Page.props := Object_assign (Page.props a) (get res "props") |}.
Proof. intros He. unfold Page.step_layer. by rewrite He, !guarded_assign. Qed.

Lemma page_step_partial a r a' :
  Page.data a !! "__proto__" = None → Page.props a !! "__proto__" = None →
  Page.step_layer a r = Next a' →
  Page.data a' = Page.partial_data r ∪ Page.data a ∧
  Page.props a' = Page.partial_props r ∪ Page.props a.
Proof.
  intros Hd Hp. destruct r as [[| |b|z|s|o]|e]; try discriminate.
  destruct (Page.ends o) eqn:He.
  - unfold Page.step_layer. rewrite He. discriminate.
  - rewrite (page_step_object _ _ He). intros [= <-]. simpl.
    by rewrite !Object_assign_plain.
Qed.

Lemma page_partial_plain d (r : Page.result) :
  d !! "__proto__" = None →
  (Page.partial_data r ∪ d) !! "__proto__" = None ∧
  (Page.partial_props r ∪ d) !! "__proto__" = None.
Proof.
  intros Hp. unfold Page.partial_data, Page.partial_props.
  destruct r as [[[| |b|z|s|o]|e]|res p]; rewrite ?(left_id_L ∅ (∪)); try done.
  split; by apply union_plain.
Qed.

Lemma page_step_plain a r a' :
  Page.data a !! "__proto__" = None → Page.props a !! "__proto__" = None →
  Page.step_layer a r = Next a' →
  Page.data a' !! "__proto__" = None ∧ Page.props a' !! "__proto__" = None.
Proof.
  intros Hd Hp Hs. destruct (page_step_partial _ _ _ Hd Hp Hs) as [-> ->].
  split; by apply page_partial_plain.
Qed.

Lemma page_run_layers_app pre post c a w :
  Page.run_layers (pre ++ post) c a w =
    let lp := Page.run_layers pre c a w in
    match Page.lp_exit lp with
    | Some _ => lp
    | None =>
        let lp2 := Page.run_layers post c (Page.lp_accs lp) (Page.lp_world lp) in
        {| Page.lp_world := Page.lp_world lp2;
           Page.lp_calls := Page.lp_calls lp ++ Page.lp_calls lp2;
           Page.lp_accs := Page.lp_accs lp2;
           Page.lp_exit := Page.lp_exit lp2 |}
    end.
Proof.
  revert a w. induction pre as [|l pre IH]; intros a w; simpl.
  - by destruct (Page.run_layers post c a w).
  - destruct (l c a w) as [w' r]. destruct (Page.step_layer a r) as [a'|k]; [| done].
    rewrite IH. simpl.
    destruct (Page.lp_exit (Page.run_layers pre c a' w')); done.
Qed.

Lemma page_calls_prefix ls c a w :
  ∃ n, Page.target <$> Page.lp_calls (Page.run_layers ls c a w) = Page.Called <$> take n ls.
Proof.
  revert a w. induction ls as [|l ls IH]; intros a w; simpl.
  - by exists 0.
  - destruct (l c a w) as [w' r]. destruct (Page.step_layer a r) as [a'|k].
    + destruct (IH a' w') as [n Hn]. exists (S n).
      cbn [Page.logged Page.lp_calls take]. by rewrite !fmap_cons, Hn.
    + by exists 1.
Qed.

Lemma page_calls_all ls c a w :
  Page.lp_exit (Page.run_layers ls c a w) = None →
  Page.target <$> Page.lp_calls (Page.run_layers ls c a w) = Page.Called <$> ls.
Proof.
  revert a w. induction ls as [|l ls IH]; intros a w; simpl; [done |].
  destruct (l c a w) as [w' r]. destruct (Page.step_layer a r) as [a'|k]; [| done].
  cbn [Page.logged Page.lp_calls Page.lp_exit]. intros Hx.
  by rewrite !fmap_cons, IH.
Qed.

Lemma page_exit_None ls c a w :
  Page.lp_exit (Page.run_layers ls c a w) = None ↔
  Forall (λ cl, ∃ r a', Page.returned cl = Page.Done r ∧
                        Page.step_layer (Page.seen cl) r = Next a')
         (Page.lp_calls (Page.run_layers ls c a w)).
Proof.
  revert a w. induction ls as [|l ls IH]; intros a w; simpl.
  - split; [constructor | done].
  - destruct (l c a w) as [w' r]. destruct (Page.step_layer a r) as [a'|k] eqn:Hs; simpl.
    + rewrite IH, Forall_cons. simpl. split; [| tauto].
      intros HF. split; [by exists r, a' | done].
    + split; [done |]. rewrite Forall_cons. simpl. intros [(r0 & a' & [= <-] & Ha') _].
      rewrite Hs in Ha'. discriminate.
Qed.

Lemma page_accs_fold ls c a w :
  Page.data a !! "__proto__" = None → Page.props a !! "__proto__" = None →
  Page.lp_exit (Page.run_layers ls c a w) = None →
  Page.data (Page.lp_accs (Page.run_layers ls c a w)) =
    foldl (λ acc cl, Page.partial_data (Page.returned cl) ∪ acc) (Page.data a)
          (Page.lp_calls (Page.run_layers ls c a w)) ∧
  Page.props (Page.lp_accs (Page.run_layers ls c a w)) =
    foldl (λ acc cl, Page.partial_props (Page.returned cl) ∪ acc) (Page.props a)
          (Page.lp_calls (Page.run_layers ls c a w)).
Proof.
  revert a w. induction ls as [|l ls IH]; intros a w Hd Hp; simpl; [done |].
  destruct (l c a w) as [w' r]. destruct (Page.step_layer a r) as [a'|k] eqn:Hs; [| done].
  simpl. intros Hx. destruct (page_step_plain _ _ _ Hd Hp Hs) as [Hd' Hp'].
  destruct (IH _ _ Hd' Hp' Hx) as [-> ->].
  by destruct (page_step_partial _ _ _ Hd Hp Hs) as [-> ->].
Qed.


End PageFacts.

(** ** Builders *)

Section FactoryFacts.
Context {L : Type}.
Implicit Types (σ : Factory.store L) (B : Factory.t) (x : L).

Lemma alloc_fresh (arr : list L) σ :
  σ !! (Factory.alloc arr σ).1 = None.
Proof.
  unfold Factory.alloc, Factory.store in *. simpl.
  apply not_elem_of_dom. apply is_fresh.
Qed.

(** [use] builds a new instance on a new array; every array that was in the
    store is left as it was. *)
Lemma use_spec B x σ (arr : list L) :
  Factory.chain B σ = Some arr →
  ∃ B' σ',
    Factory.use B x σ = Some (B', σ') ∧
    Factory.chain B' σ' = Some (arr ++ [x]) ∧
    Factory.chain B' σ = None ∧
    (∀ B0 arr0, Factory.chain B0 σ = Some arr0 → Factory.chain B0 σ' = Some arr0).
Proof.
  unfold Factory.chain, Factory.use, Factory.store in *. intros HB. rewrite HB. simpl.
  pose proof (alloc_fresh (arr ++ [x]) σ) as Hf.
  unfold Factory.alloc, Factory.store in *. simpl in Hf.
  eexists _, _. split; [reflexivity |]. simpl.
  split; [apply lookup_insert_eq |]. split; [done |].
  intros B0 arr0 H0. rewrite lookup_insert_ne; [done |].
  intros Heq. rewrite Heq in Hf. congruence.
Qed.

End FactoryFacts.

(** * The claims *)

(** C1.  A layer that returns a terminal outcome ends the run.  Let the chain
    be [pre ++ l :: post], so that [l] is layer [i = length pre], and let the
    loop reach [l]. If [l] returns an object whose [stop] is truthy (api), or
    an object with a [notFound] or a [redirect] key (page), then the calls of
    the run are the calls to the layers of [pre] followed by the call to [l]
    and nothing else: no layer of [post] and no final handler is called, and
    the world is as [l] left it. The result is [undefined] (api) or the
    object that [l] returned, as it is (page): nothing of the accumulators is
    put into it. *)
Theorem C1_terminal_outcome_ends_the_run :
  (∀ (Ctx W : Type) (pre post : list (Api.ApiLayer Ctx W)) (l : Api.ApiLayer Ctx W)
     (fn : Api.ApiFn Ctx W) (c : Ctx) (w w' : W) (o : obj) (v : value),
     Api.lp_exit (Api.run_layers pre c ∅ w) = None →
     l c (Api.lp_data (Api.run_layers pre c ∅ w))
         (Api.lp_world (Api.run_layers pre c ∅ w)) = (w', Return (VObj o)) →
     o !! "stop" = Some v → truthy v = true →
     Api.handler_body (pre ++ l :: post) fn c w =
       {| Api.world := w';
          Api.calls := Api.lp_calls (Api.run_layers pre c ∅ w) ++
            [{| Api.target := Api.Layer l;
                Api.seen := Api.lp_data (Api.run_layers pre c ∅ w);
                Api.returned := Return (VObj o) |}];
          Api.data_at_end := Api.lp_data (Api.run_layers pre c ∅ w);
          Api.outcome := Return VUndef |}
     ∧ Api.target <$> Api.calls (Api.handler_body (pre ++ l :: post) fn c w)
       = Api.Layer <$> (pre ++ [l]))
  ∧
  (∀ (Ctx W : Type) (pre post : list (Page.Layer Ctx W)) (l : Page.Layer Ctx W)
     (fn : option (Page.PageFn Ctx W)) (c : Ctx) (w w' : W) (o : obj),
     Page.lp_exit (Page.run_layers pre c Page.empty_accs w) = None →
     l c (Page.lp_accs (Page.run_layers pre c Page.empty_accs w))
         (Page.lp_world (Page.run_layers pre c Page.empty_accs w))
       = (w', Return (VObj o)) →
     is_Some (o !! "notFound") ∨ is_Some (o !! "redirect") →
     Page.handler_body (pre ++ l :: post) fn c w =
       {| Page.world := w';
          Page.calls := Page.lp_calls (Page.run_layers pre c Page.empty_accs w) ++
            [{| Page.target := Page.Called l;
                Page.seen := Page.lp_accs (Page.run_layers pre c Page.empty_accs w);
                Page.returned := Return (VObj o) |}];
          Page.accs_at_end := Page.lp_accs (Page.run_layers pre c Page.empty_accs w);
          Page.outcome := Return (VObj o) |}
     ∧ Page.target <$> Page.calls (Page.handler_body (pre ++ l :: post) fn c w)
       = Page.Called <$> (pre ++ [l])).
Proof.
  split.
  - intros Ctx W pre post l fn c w w' o v Hpre Hl Ho Hv.
    assert (Hrun : Api.handler_body (pre ++ l :: post) fn c w =
       {| Api.world := w';
          Api.calls := Api.lp_calls (Api.run_layers pre c ∅ w) ++
            [{| Api.target := Api.Layer l;
                Api.seen := Api.lp_data (Api.run_layers pre c ∅ w);
                Api.returned := Return (VObj o) |}];
          Api.data_at_end := Api.lp_data (Api.run_layers pre c ∅ w);
          Api.outcome := Return VUndef |}).
    { unfold Api.handler_body. rewrite api_run_layers_app. cbv zeta.
      rewrite Hpre. cbn [Api.run_layers]. rewrite Hl.
      unfold Api.step_layer.
      assert (Hs : has "stop" o = true) by (apply has_true; eauto).
      rewrite Hs, (get_Some _ _ _ Ho), Hv. reflexivity. }
    split; [exact Hrun |].
    rewrite Hrun. cbn [Api.calls]. rewrite !fmap_app, (api_calls_all _ _ _ _ Hpre).
    reflexivity.
  - intros Ctx W pre post l fn c w w' o Hpre Hl Ho.
    assert (Hrun : Page.handler_body (pre ++ l :: post) fn c w =
       {| Page.world := w';
          Page.calls := Page.lp_calls (Page.run_layers pre c Page.empty_accs w) ++
            [{| Page.target := Page.Called l;
                Page.seen := Page.lp_accs (Page.run_layers pre c Page.empty_accs w);
                Page.returned := Return (VObj o) |}];
          Page.accs_at_end := Page.lp_accs (Page.run_layers pre c Page.empty_accs w);
          Page.outcome := Return (VObj o) |}).
    { unfold Page.handler_body. rewrite page_run_layers_app. cbv zeta.
      rewrite Hpre. cbn [Page.run_layers]. rewrite Hl.
      unfold Page.step_layer. apply page_ends_true in Ho. rewrite Ho. reflexivity. }
    split; [exact Hrun |].
    rewrite Hrun. cbn [Page.calls]. rewrite !fmap_app, (page_calls_all _ _ _ _ Hpre).
    reflexivity.
Qed.

Lemma C1_witness :
  Api.handler_body ([Sample.api_a] ++ Sample.api_stop :: [Sample.api_b])
    Sample.api_final () []
  = {| Api.world := ["L0"; "L1"];
       Api.calls :=
         [{| Api.target := Api.Layer Sample.api_a; Api.seen := ∅;
             Api.returned := Return (Sample.data_of "a" (VStr "a")) |};
          {| Api.target := Api.Layer Sample.api_stop;
             Api.seen := {[ "a" := VStr "a" ]};
             Api.returned := Return (Sample.only "stop" (VBool true)) |}];
       Api.data_at_end := {[ "a" := VStr "a" ]};
       Api.outcome := Return VUndef |}
  ∧
  Page.outcome (Page.handler_body
    ([Sample.page_other] ++ Sample.page_notFound :: [Sample.page_redirect])
    (Some Sample.page_final) () [])
  = Return (Sample.only "notFound" (VBool true)).
Proof.
  destruct C1_terminal_outcome_ends_the_run as [Hapi Hpage]. split.
  - destruct (Hapi unit (list string) [Sample.api_a] [Sample.api_b] Sample.api_stop
      Sample.api_final () [] ["L0"; "L1"] {[ "stop" := VBool true ]} (VBool true)
      eq_refl eq_refl eq_refl eq_refl) as [H _].
    rewrite H. reflexivity.
  - destruct (Hpage unit (list string) [Sample.page_other] [Sample.page_redirect]
      Sample.page_notFound (Some Sample.page_final) () [] ["L0"; "L1"]
      {[ "notFound" := VBool true ]} eq_refl eq_refl
      (or_introl (mk_is_Some _ _ eq_refl))) as [H _].
    rewrite H. reflexivity.
Defined.

(** ** Merging over a whole chain *)

Section MergeFacts.
Context {Ctx W : Type}.











End MergeFacts.

(** What the api loop does with an object that does not stop the run. *)
Lemma api_step_object (d o : obj) :
  has "stop" o && truthy (get o "stop") = false →
  Api.step_layer d (Return (VObj o)) = Next (Object_assign d (get o "data")).
Proof.
  intros Hs. unfold Api.step_layer. rewrite Hs.
  destruct (has "data" o) eqn:Hd; [done |].
  apply has_false in Hd. rewrite (get_None _ _ Hd).
  by rewrite Object_assign_falsy.
Qed.




(** ** Branching a builder *)

Section BranchFacts.
Context {L : Type}.

(** Two extensions of one builder: three arrays, none of which the other
    extension touches. *)
Lemma use_twice (B : Factory.t) (x y : L) (σ : Factory.store L) (arr : list L) :
  Factory.chain B σ = Some arr →
  ∃ B1 σ1 B2 σ2,
    Factory.use B x σ = Some (B1, σ1) ∧ Factory.use B y σ1 = Some (B2, σ2) ∧
    Factory.chain B σ1 = Some arr ∧ Factory.chain B σ2 = Some arr ∧
    Factory.chain B1 σ1 = Some (arr ++ [x]) ∧ Factory.chain B1 σ2 = Some (arr ++ [x]) ∧
    Factory.chain B2 σ2 = Some (arr ++ [y]).
Proof.
  intros HB.
  destruct (use_spec B x σ arr HB) as (B1 & σ1 & Hu1 & HB1 & _ & Hkeep1).
  pose proof (Hkeep1 _ _ HB) as HB'.
  destruct (use_spec B y σ1 arr HB') as (B2 & σ2 & Hu2 & HB2 & _ & Hkeep2).
  exists B1, σ1, B2, σ2. repeat split; auto.
Qed.

End BranchFacts.

Lemma api_calls_within {Ctx W} (ls : list (Api.ApiLayer Ctx W)) (fn : Api.ApiFn Ctx W)
    (c : Ctx) (w : W) (cl : Api.call Ctx W) (l : Api.ApiLayer Ctx W) :
  cl ∈ Api.calls (Api.handler_body ls fn c w) → Api.target cl = Api.Layer l → l ∈ ls.
Proof.
  intros Hcl Ht.
  assert (Hin : cl ∈ Api.lp_calls (Api.run_layers ls c ∅ w)).
  { revert Hcl. unfold Api.handler_body.
    destruct (Api.lp_exit (Api.run_layers ls c ∅ w)); [done |].
    destruct (fn c _ _) as [w' r]. cbn [Api.calls].
    rewrite elem_of_app, list_elem_of_singleton. intros [? | ->]; [done |].
    discriminate. }
  destruct (api_calls_prefix ls c ∅ w) as [n Hn].
  assert (Hl : Api.Layer l ∈ Api.Layer <$> take n ls).
  { rewrite <- Hn, <- Ht. by apply list_elem_of_fmap_2. }
  apply list_elem_of_fmap in Hl as (l' & [= ->] & Hl').
  by apply (subseteq_take n ls).
Qed.

Lemma page_calls_within {Ctx W} (ls : list (Page.Layer Ctx W))
    (fn : option (Page.PageFn Ctx W)) (c : Ctx) (w : W) (cl : Page.call Ctx W)
    (l : Page.Layer Ctx W) :
  cl ∈ Page.calls (Page.handler_body ls fn c w) → Page.target cl = Page.Called l → l ∈ ls.
Proof.
  intros Hcl Ht.
  assert (Hin : cl ∈ Page.lp_calls (Page.run_layers ls c Page.empty_accs w)).
  { revert Hcl. unfold Page.handler_body.
    destruct (Page.lp_exit (Page.run_layers ls c Page.empty_accs w)); [done |].
    destruct fn as [f|]; [| done].
    destruct (f c _ _) as [w' r]. destruct (Page.step_final _ r) as [a' k].
    cbn [Page.calls].
    rewrite elem_of_app, list_elem_of_singleton. intros [? | ->]; [done |].
    discriminate. }
  destruct (page_calls_prefix ls c Page.empty_accs w) as [n Hn].
  assert (Hl : Page.Called l ∈ Page.Called <$> take n ls).
  { rewrite <- Hn, <- Ht. by apply list_elem_of_fmap_2. }
  apply list_elem_of_fmap in Hl as (l' & [= ->] & Hl').
  by apply (subseteq_take n ls).
Qed.

(** C3.  [use] does not touch the builder it extends.  For a builder [B]
    whose chain is [arr], [B.use(x)] and then [B.use(y)] give builders [B1]
    and [B2] with the chains [arr ++ [x]] and [arr ++ [y]], while the chain
    of [B] is still [arr] (and that of [B1] is not changed by the second
    [use]).  A handler compiled from a branch runs the chain of its own
    branch: every layer it calls is a layer of [arr] or the layer the branch
    added, so [x] is not called by a run of [B2]'s handler and [y] is not
    called by a run of [B1]'s handler unless it is also one of those.  The
    same holds of both classes. *)
Theorem C3_use_branches_without_mixing :
  (∀ (Ctx W : Type) (σ : Api.store Ctx W) (B : Api.ApiMiddlewareFactory)
     (x y : Api.ApiLayer Ctx W) (arr : list (Api.ApiLayer Ctx W)),
     Factory.chain B σ = Some arr →
     ∃ B1 σ1 B2 σ2,
       Api.use B x σ = Some (B1, σ1) ∧ Api.use B y σ1 = Some (B2, σ2) ∧
       Factory.chain B σ1 = Some arr ∧ Factory.chain B σ2 = Some arr ∧
       Factory.chain B1 σ1 = Some (arr ++ [x]) ∧
       Factory.chain B1 σ2 = Some (arr ++ [x]) ∧
       Factory.chain B2 σ2 = Some (arr ++ [y]) ∧
       ∀ (fn : Api.ApiFn Ctx W) (c : Ctx) (w : W),
         Api.invoke (Api.handler B fn) σ2 c w = Some (Api.handler_body arr fn c w) ∧
         Api.invoke (Api.handler B1 fn) σ2 c w
           = Some (Api.handler_body (arr ++ [x]) fn c w) ∧
         Api.invoke (Api.handler B2 fn) σ2 c w
           = Some (Api.handler_body (arr ++ [y]) fn c w) ∧
         (∀ cl l, cl ∈ Api.calls (Api.handler_body (arr ++ [x]) fn c w) →
                  Api.target cl = Api.Layer l → l ∈ arr ∨ l = x) ∧
         (∀ cl l, cl ∈ Api.calls (Api.handler_body (arr ++ [y]) fn c w) →
                  Api.target cl = Api.Layer l → l ∈ arr ∨ l = y))
  ∧
  (∀ (Ctx W : Type) (σ : Page.store Ctx W) (B : Page.PageMiddlewareFactory)
     (x y : Page.Layer Ctx W) (arr : list (Page.Layer Ctx W)),
     Factory.chain B σ = Some arr →
     ∃ B1 σ1 B2 σ2,
       Page.use B x σ = Some (B1, σ1) ∧ Page.use B y σ1 = Some (B2, σ2) ∧
       Factory.chain B σ1 = Some arr ∧ Factory.chain B σ2 = Some arr ∧
       Factory.chain B1 σ1 = Some (arr ++ [x]) ∧
       Factory.chain B1 σ2 = Some (arr ++ [x]) ∧
       Factory.chain B2 σ2 = Some (arr ++ [y]) ∧
       ∀ (fn : option (Page.PageFn Ctx W)) (c : Ctx) (w : W),
         Page.invoke (Page.handler B fn) σ2 c w = Some (Page.handler_body arr fn c w) ∧
         Page.invoke (Page.handler B1 fn) σ2 c w
           = Some (Page.handler_body (arr ++ [x]) fn c w) ∧
         Page.invoke (Page.handler B2 fn) σ2 c w
           = Some (Page.handler_body (arr ++ [y]) fn c w) ∧
         (∀ cl l, cl ∈ Page.calls (Page.handler_body (arr ++ [x]) fn c w) →
                  Page.target cl = Page.Called l → l ∈ arr ∨ l = x) ∧
         (∀ cl l, cl ∈ Page.calls (Page.handler_body (arr ++ [y]) fn c w) →
                  Page.target cl = Page.Called l → l ∈ arr ∨ l = y)).
Proof.
  split.
  - intros Ctx W σ B x y arr HB.
    destruct (use_twice B x y σ arr HB)
      as (B1 & σ1 & B2 & σ2 & Hu1 & Hu2 & Hs1 & Hs2 & H11 & H12 & H22).
    exists B1, σ1, B2, σ2. unfold Api.use. repeat (split; [assumption |]).
    intros fn c w. unfold Api.invoke, Api.handler. cbn [Api.h_this Api.h_fn].
    rewrite Hs2, H12, H22. repeat (split; [reflexivity |]).
    split; intros cl l Hcl Ht;
      apply api_calls_within with (l := l) in Hcl; try assumption;
      apply elem_of_app in Hcl as [? | ->%list_elem_of_singleton]; auto.
  - intros Ctx W σ B x y arr HB.
    destruct (use_twice B x y σ arr HB)
      as (B1 & σ1 & B2 & σ2 & Hu1 & Hu2 & Hs1 & Hs2 & H11 & H12 & H22).
    exists B1, σ1, B2, σ2. unfold Page.use. repeat (split; [assumption |]).
    intros fn c w. unfold Page.invoke, Page.handler. cbn [Page.h_this Page.h_fn].
    rewrite Hs2, H12, H22. repeat (split; [reflexivity |]).
    split; intros cl l Hcl Ht;
      apply page_calls_within with (l := l) in Hcl; try assumption;
      apply elem_of_app in Hcl as [? | ->%list_elem_of_singleton]; auto.
Qed.

(** The store of the sample is the one that the calls of the test build. *)
Example middleware_store_built :
  (let '(B0, σ0) := Api.apiMiddleware ∅ in Api.use B0 Sample.layer1 σ0)
  = Some (Sample.middleware, Sample.middleware_store).
Proof. vm_compute. reflexivity. Qed.

Lemma C3_witness :
  (∃ B1 σ1 B2 σ2,
     Api.use Sample.middleware Sample.layer2 Sample.middleware_store = Some (B1, σ1) ∧
     Api.use Sample.middleware Sample.layer3 σ1 = Some (B2, σ2) ∧
     Api.data_at_end <$> Api.invoke (Api.handler B1 Sample.api_final) σ2 () []
       = Some {[ "layer1" := VBool true; "layer2" := VBool true ]} ∧
     Api.data_at_end <$> Api.invoke (Api.handler B2 Sample.api_final) σ2 () []
       = Some {[ "layer1" := VBool true; "layer3" := VBool true ]})
  ∧
  (∃ B1 σ1 B2 σ2,
     Page.use Sample.page_middleware Sample.page_layer2 Sample.page_middleware_store
       = Some (B1, σ1) ∧
     Page.use Sample.page_middleware Sample.page_layer3 σ1 = Some (B2, σ2) ∧
     Page.world <$> Page.invoke (Page.handler B1 None) σ2 () []
       = Some ["layer1"; "layer2"] ∧
     Page.world <$> Page.invoke (Page.handler B2 None) σ2 () []
       = Some ["layer1"; "layer3"]).
Proof.
  destruct C3_use_branches_without_mixing as [Hapi Hpage]. split.
  - destruct (Hapi unit (list string) Sample.middleware_store Sample.middleware
      Sample.layer2 Sample.layer3 [Sample.layer1] eq_refl)
      as (B1 & σ1 & B2 & σ2 & Hu1 & Hu2 & _ & _ & _ & _ & _ & Hinv).
    exists B1, σ1, B2, σ2. split; [exact Hu1 |]. split; [exact Hu2 |].
    destruct (Hinv Sample.api_final () []) as (_ & -> & -> & _). split; reflexivity.
  - destruct (Hpage unit (list string) Sample.page_middleware_store Sample.page_middleware
      Sample.page_layer2 Sample.page_layer3 [Sample.page_layer1] eq_refl)
      as (B1 & σ1 & B2 & σ2 & Hu1 & Hu2 & _ & _ & _ & _ & _ & Hinv).
    exists B1, σ1, B2, σ2. split; [exact Hu1 |]. split; [exact Hu2 |].
    destruct (Hinv None () []) as (_ & -> & -> & _). split; reflexivity.
Defined.

(** ** Layers that return nothing *)

(** C4, as stated, fails in the page flavor: a layer that returns
    [undefined] makes ["notFound" in res] throw, the next layer and the final
    handler are not called, and the handler throws a [TypeError]. *)
Lemma C4_counterexample :
  Page.handler_body [Sample.page_void; Sample.page_b] (Some Sample.page_final) () []
  = {| Page.world := ["void"];
       Page.calls := [{| Page.target := Page.Called Sample.page_void;
                         Page.seen := Page.empty_accs;
                         Page.returned := Return VUndef |}];
       Page.accs_at_end := Page.empty_accs;
       Page.outcome := Throw TypeError |}.
Proof. reflexivity. Qed.

(** C4, amended.  In the api flavor a layer that returns [undefined], or an
    object with neither a [stop] nor a [data] key, and in the page flavor a
    layer that returns an object with none of the keys [notFound],
    [redirect], [data] and [props], leaves the accumulators as they are and
    does not end the run: from any state of the loop, the run goes on with
    the rest of the chain, with the same accumulators, from the world the
    layer left.  (In the page flavor [undefined] is not a value of the
    layer's return type; the step on it is the [TypeError].) *)
Theorem C4_empty_results_change_nothing :
  (∀ (Ctx W : Type) (l : Api.ApiLayer Ctx W) (rest : list (Api.ApiLayer Ctx W))
     (c : Ctx) (d : obj) (w w' : W) (r : value),
     l c d w = (w', Return r) →
     r = VUndef ∨ (∃ o, r = VObj o ∧ o !! "stop" = None ∧ o !! "data" = None) →
     Api.step_layer d (Return r) = Next d ∧
     Api.run_layers (l :: rest) c d w =
       Api.logged {| Api.target := Api.Layer l; Api.seen := d; Api.returned := Return r |}
                  (Api.run_layers rest c d w'))
  ∧
  (∀ (Ctx W : Type) (l : Page.Layer Ctx W) (rest : list (Page.Layer Ctx W))
     (c : Ctx) (a : Page.accs) (w w' : W) (o : obj),
     l c a w = (w', Return (VObj o)) →
     o !! "notFound" = None → o !! "redirect" = None →
     o !! "data" = None → o !! "props" = None →
     Page.step_layer a (Return (VObj o)) = Next a ∧
     Page.run_layers (l :: rest) c a w =
       Page.logged {| Page.target := Page.Called l; Page.seen := a;
                      Page.returned := Return (VObj o) |}
                   (Page.run_layers rest c a w'))
  ∧
  (∀ a : Page.accs, Page.step_layer a (Return VUndef) = Exit (Throw TypeError)).
Proof.
  split; [| split; [| reflexivity]].
  - intros Ctx W l rest c d w w' r Hl Hr.
    assert (Hs : Api.step_layer d (Return r) = Next d).
    { destruct Hr as [-> | (o & -> & Hstop & Hdata)]; [done |].
      apply has_false in Hstop, Hdata. unfold Api.step_layer.
      by rewrite Hstop, Hdata. }
    split; [exact Hs |]. cbn [Api.run_layers]. by rewrite Hl, Hs.
  - intros Ctx W l rest c a w w' o Hl Hn Hr Hd Hp.
    assert (Hs : Page.step_layer a (Return (VObj o)) = Next a).
    { rewrite page_step_object by by apply page_ends_false.
      rewrite (get_None _ _ Hd), (get_None _ _ Hp).
      rewrite !Object_assign_falsy by done. by destruct a. }
    split; [exact Hs |]. cbn [Page.run_layers]. by rewrite Hl, Hs.
Qed.

Lemma C4_witness :
  Api.run_layers [Sample.api_empty; Sample.api_b] () {[ "a" := VStr "a" ]} []
  = Api.logged {| Api.target := Api.Layer Sample.api_empty;
                  Api.seen := {[ "a" := VStr "a" ]};
                  Api.returned := Return VUndef |}
               (Api.run_layers [Sample.api_b] () {[ "a" := VStr "a" ]} ["empty"])
  ∧
  Page.run_layers [Sample.page_bare; Sample.page_b] () Page.empty_accs []
  = Page.logged {| Page.target := Page.Called Sample.page_bare;
                   Page.seen := Page.empty_accs;
                   Page.returned := Return (VObj ∅) |}
                (Page.run_layers [Sample.page_b] () Page.empty_accs ["bare"]).
Proof.
  destruct C4_empty_results_change_nothing as (Hapi & Hpage & _). split.
  - exact (proj2 (Hapi unit (list string) Sample.api_empty [Sample.api_b] ()
      {[ "a" := VStr "a" ]} [] ["empty"] VUndef eq_refl (or_introl eq_refl))).
  - exact (proj2 (Hpage unit (list string) Sample.page_bare [Sample.page_b] ()
      Page.empty_accs [] ["bare"] ∅ eq_refl eq_refl eq_refl eq_refl eq_refl)).
Defined.

(** ** The final handler *)




(** ** How a result is classified *)

Lemma api_stops_iff (o : obj) :
  has "stop" o && truthy (get o "stop") = true ↔
  ∃ v, o !! "stop" = Some v ∧ truthy v = true.
Proof.
  rewrite andb_true_iff, has_true. split.
  - intros [[v Hv] Ht]. exists v. by rewrite (get_Some _ _ _ Hv) in Ht.
  - intros (v & Hv & Ht). rewrite (get_Some _ _ _ Hv). eauto.
Qed.

Lemma api_goes_on (o : obj) :
  (∀ v, o !! "stop" = Some v → truthy v = false) →
  has "stop" o && truthy (get o "stop") = false.
Proof.
  intros Hf. apply not_true_is_false. rewrite api_stops_iff.
  intros (v & Hv & Ht). rewrite (Hf v Hv) in Ht. discriminate.
Qed.



(** C7, as stated, fails.  Each of these objects matches neither of the
    shapes that the layer's type declares, and is not passed over:
    [{ data: "hi" }] adds the characters of the string to [data],
    [{ stop: 1 }] ends an api run, and [{ notFound: false, data: 5 }] ends a
    page run and is its result. *)
Lemma C7_counterexample :
  (¬ Api.partial_shape {[ "data" := VStr "hi" ]}
   ∧ ¬ Api.terminal_shape {[ "data" := VStr "hi" ]}
   ∧ Api.data_at_end (Api.handler_body [Sample.api_text] Sample.api_final () [])
     = {[ "0" := VStr "h"; "1" := VStr "i" ]})
  ∧
  (¬ Api.partial_shape {[ "stop" := VNum 1 ]}
   ∧ ¬ Api.terminal_shape {[ "stop" := VNum 1 ]}
   ∧ Api.handler_body [Sample.api_stop_one; Sample.api_b] Sample.api_final () []
     = {| Api.world := ["one"];
          Api.calls := [{| Api.target := Api.Layer Sample.api_stop_one; Api.seen := ∅;
                           Api.returned := Return (VObj {[ "stop" := VNum 1 ]}) |}];
          Api.data_at_end := ∅;
          Api.outcome := Return VUndef |})
  ∧
  (¬ Page.partial_shape {[ "notFound" := VBool false; "data" := VNum 5 ]}
   ∧ ¬ Page.terminal_shape {[ "notFound" := VBool false; "data" := VNum 5 ]}
   ∧ Page.handler_body [Sample.page_notFound_false_data; Sample.page_b]
       (Some Sample.page_final) () []
     = {| Page.world := ["nf"];
          Page.calls :=
            [{| Page.target := Page.Called Sample.page_notFound_false_data;
                Page.seen := Page.empty_accs;
                Page.returned :=
                  Return (VObj {[ "notFound" := VBool false; "data" := VNum 5 ]}) |}];
          Page.accs_at_end := Page.empty_accs;
          Page.outcome :=
            Return (VObj {[ "notFound" := VBool false; "data" := VNum 5 ]}) |}).
Proof.
  split; [| split]; (split; [| split]); try (vm_compute; reflexivity).
  - intros [m H]. vm_compute in H. discriminate.
  - intros H. vm_compute in H. discriminate.
  - intros [m H]. vm_compute in H. discriminate.
  - intros H. vm_compute in H. discriminate.
  - intros [[H | [H | [m H]]] _]; vm_compute in H; discriminate.
  - intros [H | [m H]]; vm_compute in H; discriminate.
Qed.

(** C7, amended.  A layer's result object is passed over when it has no
    tag and nothing to copy: in the api flavor when [stop] is absent or
    falsy, in the page flavor when it has neither a [notFound] nor a
    [redirect] key, and in both when [data] (and, in the page flavor,
    [props]) is absent or holds a value without own enumerable properties
    ([undefined], [null], a boolean, a number, the empty string or the
    empty object).
    The step on such an object raises nothing and leaves the accumulators
    as they are, and the loop goes on with the rest of the chain. *)
Theorem C7_other_objects_are_passed_over :
  (∀ (Ctx W : Type) (l : Api.ApiLayer Ctx W) (rest : list (Api.ApiLayer Ctx W))
     (c : Ctx) (d : obj) (w w' : W) (o : obj),
     l c d w = (w', Return (VObj o)) →
     (∀ v, o !! "stop" = Some v → truthy v = false) →
     propertyless (get o "data") →
     Api.step_layer d (Return (VObj o)) = Next d ∧
     Api.run_layers (l :: rest) c d w =
       Api.logged {| Api.target := Api.Layer l; Api.seen := d;
                     Api.returned := Return (VObj o) |}
                  (Api.run_layers rest c d w'))
  ∧
  (∀ (Ctx W : Type) (l : Page.Layer Ctx W) (rest : list (Page.Layer Ctx W))
     (c : Ctx) (a : Page.accs) (w w' : W) (o : obj),
     l c a w = (w', Return (VObj o)) →
     o !! "notFound" = None → o !! "redirect" = None →
     propertyless (get o "data") → propertyless (get o "props") →
     Page.step_layer a (Return (VObj o)) = Next a ∧
     Page.run_layers (l :: rest) c a w =
       Page.logged {| Page.target := Page.Called l; Page.seen := a;
                      Page.returned := Return (VObj o) |}
                   (Page.run_layers rest c a w')).
Proof.
  split.
  - intros Ctx W l rest c d w w' o Hl Hstop Hdata.
    assert (Hs : Api.step_layer d (Return (VObj o)) = Next d).
    { rewrite (api_step_object _ _ (api_goes_on _ Hstop)).
      by rewrite Object_assign_propertyless. }
    split; [exact Hs |]. cbn [Api.run_layers]. by rewrite Hl, Hs.
  - intros Ctx W l rest c a w w' o Hl Hn Hr Hd Hp.
    assert (Hs : Page.step_layer a (Return (VObj o)) = Next a).
    { rewrite page_step_object by by apply page_ends_false.
      rewrite !Object_assign_propertyless by done. by destruct a. }
    split; [exact Hs |]. cbn [Page.run_layers]. by rewrite Hl, Hs.
Qed.

Lemma C7_witness :
  (¬ Api.partial_shape {[ "status" := VNum 200 ]}
   ∧ ¬ Api.terminal_shape {[ "status" := VNum 200 ]}
   ∧ Api.run_layers [Sample.api_odd; Sample.api_b] () {[ "a" := VStr "a" ]} []
     = Api.logged {| Api.target := Api.Layer Sample.api_odd;
                     Api.seen := {[ "a" := VStr "a" ]};
                     Api.returned := Return (Sample.only "status" (VNum 200)) |}
                  (Api.run_layers [Sample.api_b] () {[ "a" := VStr "a" ]} ["odd"]))
  ∧
  (¬ Page.partial_shape {[ "data" := VNull; "props" := VNum 7 ]}
   ∧ ¬ Page.terminal_shape {[ "data" := VNull; "props" := VNum 7 ]}
   ∧ Page.run_layers [Sample.page_null; Sample.page_b] () Page.empty_accs []
     = Page.logged {| Page.target := Page.Called Sample.page_null;
                      Page.seen := Page.empty_accs;
                      Page.returned :=
                        Return (VObj {[ "data" := VNull; "props" := VNum 7 ]}) |}
                   (Page.run_layers [Sample.page_b] () Page.empty_accs ["null"])).
Proof.
  destruct C7_other_objects_are_passed_over as [Hapi Hpage].
  assert (Hstop : ∀ v, ({[ "status" := VNum 200 ]} : obj) !! "stop" = Some v →
                       truthy v = false).
  { intros v Hv. vm_compute in Hv. discriminate. }
  split; (split; [| split]).
  - intros [m H]. vm_compute in H. discriminate.
  - intros H. vm_compute in H. discriminate.
  - refine (proj2 (Hapi unit (list string) Sample.api_odd [Sample.api_b] ()
      {[ "a" := VStr "a" ]} [] ["odd"] {[ "status" := VNum 200 ]} eq_refl Hstop _)).
    vm_compute. exact I.
  - intros [[H | [H | [m H]]] _]; vm_compute in H; discriminate.
  - intros [H | [m H]]; vm_compute in H; discriminate.
  - refine (proj2 (Hpage unit (list string) Sample.page_null [Sample.page_b] ()
      Page.empty_accs [] ["null"] {[ "data" := VNull; "props" := VNum 7 ]}
      eq_refl _ _ _ _)); vm_compute; first [reflexivity | exact I].
Defined.

(** ** Layers with disjoint contributions *)

(** Assigning pairwise disjoint maps one after the other builds their union. *)
Lemma foldl_assign_union (ms : list obj) (d : obj) :
  map_disjoint_list ms → foldl (λ acc m, m ∪ acc) d ms = ⋃ ms ∪ d.
Proof.
  revert d. induction ms as [|m ms IH]; intros d Hdisj; simpl.
  - by rewrite (left_id_L ∅ (∪)).
  - apply map_disjoint_list_cons in Hdisj as [Hm Hms].
    rewrite (IH _ Hms), (assoc_L (∪)). f_equal.
    apply map_union_comm. by apply map_disjoint_union_list_l.
Qed.

(** The union of pairwise disjoint maps does not depend on their order. *)
Lemma union_list_disjoint_perm (ms ms' : list obj) :
  map_disjoint_list ms → ms' ≡ₚ ms → ⋃ ms' = ⋃ ms.
Proof.
  intros Hdisj Hperm.
  assert (Hdisj' : map_disjoint_list ms') by by rewrite Hperm.
  apply map_eq. intros k. apply option_eq. intros v.
  rewrite !lookup_union_list_Some by done.
  by setoid_rewrite Hperm.
Qed.

Lemma union_list_delete (ms : list obj) (k : string) :
  ⋃ (delete k <$> ms) = delete k (⋃ ms).
Proof.
  induction ms as [|m ms IH]; [simpl; by rewrite delete_empty |].
  rewrite fmap_cons.
  change (delete k m ∪ ⋃ (delete k <$> ms) = delete k (m ∪ ⋃ ms)).
  by rewrite IH, delete_union.
Qed.

Lemma map_disjoint_list_delete (ms : list obj) (k : string) :
  map_disjoint_list ms → map_disjoint_list (fmap (M:=list) (delete k : obj → obj) ms).
Proof.
  induction ms as [|m ms IH]; [done |].
  rewrite fmap_cons, !map_disjoint_list_cons. intros [Hm Hms]. split; [| by apply IH].
  apply Forall_fmap. eapply Forall_impl; [exact Hm |]. intros m' H. simpl.
  by apply map_disjoint_delete_l, map_disjoint_delete_r.
Qed.

Lemma foldl_contributions {A} (part : A → obj) (f : obj → obj) (xs : list A)
    (ms : list obj) (d : obj) :
  Forall2 (λ x m, part x = f m) xs ms →
  foldl (λ acc x, part x ∪ acc) d xs = foldl (λ acc m, m ∪ acc) d (f <$> ms).
Proof.
  intros H. revert d. induction H as [|x m xs ms Hx _ IH]; intros d; [done |].
  rewrite fmap_cons. cbn [foldl]. by rewrite Hx, IH.
Qed.

(** Pairwise disjoint maps assigned one after the other to the empty object,
    each without its [__proto__] key, give their union without that key. *)
Lemma foldl_disjoint_union (ms : list obj) :
  map_disjoint_list ms →
  foldl (λ acc m, m ∪ acc) ∅ (delete "__proto__" <$> ms) = delete "__proto__" (⋃ ms).
Proof.
  intros Hdisj.
  rewrite (foldl_assign_union _ _ (map_disjoint_list_delete _ _ Hdisj)).
  by rewrite (right_id_L ∅ (∪)), union_list_delete.
Qed.

Lemma lookup_disjoint_union (ms : list obj) (k : string) (v : value) :
  map_disjoint_list ms → k ≠ "__proto__" →
  delete "__proto__" (⋃ ms) !! k = Some v ↔ ∃ m, m ∈ ms ∧ m !! k = Some v.
Proof.
  intros Hdisj Hk. rewrite lookup_delete_ne by done.
  by apply lookup_union_list_Some.
Qed.

Section Disjoint.
Context {Ctx W : Type}.

Lemma api_contributes (r : completion) (m : obj) :
  Api.contributes r m →
  (∀ d, ∃ d', Api.step_layer d r = Next d') ∧ Api.partial r = delete "__proto__" m.
Proof.
  intros [[-> ->] | (o & -> & Hstop & Hd)].
  - split; [by eexists | by rewrite delete_empty].
  - split.
    + intros d. eexists. apply api_step_object. by apply api_goes_on.
    + simpl. destruct Hd as [Hd | [Hd ->]].
      * by rewrite (get_Some _ _ _ Hd).
      * by rewrite (get_None _ _ Hd).
Qed.

Lemma page_contributes (r : Page.result) (md mp : obj) :
  Page.contributes r md mp →
  (∃ k, r = Page.Done k ∧ ∀ a, ∃ a', Page.step_layer a k = Next a') ∧
  Page.partial_data r = delete "__proto__" md ∧
  Page.partial_props r = delete "__proto__" mp.
Proof.
  intros (o & -> & Hn & Hr & Hd & Hp). split; [| split].
  - eexists. split; [reflexivity |]. intros a. eexists.
    apply page_step_object. by apply page_ends_false.
  - simpl. destruct Hd as [Hd | [Hd ->]].
    + by rewrite (get_Some _ _ _ Hd).
    + by rewrite (get_None _ _ Hd).
  - simpl. destruct Hp as [Hp | [Hp ->]].
    + by rewrite (get_Some _ _ _ Hp).
    + by rewrite (get_None _ _ Hp).
Qed.

(** A loop each of whose calls contributed an object: when the objects are
    pairwise disjoint, the loop ran to its end and the accumulator is their
    union. *)
Lemma api_disjoint_union (ls : list (Api.ApiLayer Ctx W)) (c : Ctx) (w : W)
    (ms : list obj) :
  Forall2 (λ cl m, Api.contributes (Api.returned cl) m)
          (Api.lp_calls (Api.run_layers ls c ∅ w)) ms →
  map_disjoint_list ms →
  Api.lp_exit (Api.run_layers ls c ∅ w) = None ∧
  Api.lp_data (Api.run_layers ls c ∅ w) = delete "__proto__" (⋃ ms).
Proof.
  intros Hc Hdisj.
  assert (Hx : Api.lp_exit (Api.run_layers ls c ∅ w) = None).
  { apply api_exit_None. clear Hdisj.
    induction Hc as [|cl m cls ms' Hcl _ IH]; constructor; [| done].
    apply api_contributes in Hcl as [Hs _]. apply Hs. }
  split; [exact Hx |].
  rewrite (api_data_fold _ _ _ _ (lookup_empty _) Hx).
  rewrite (foldl_contributions _ (delete "__proto__") _ ms).
  - by apply foldl_disjoint_union.
  - eapply Forall2_impl; [exact Hc |]. intros cl m Hcl. cbv beta.
    by apply api_contributes in Hcl as [_ ->].
Qed.

Lemma page_disjoint_union (ls : list (Page.Layer Ctx W)) (c : Ctx) (w : W)
    (ms : list (obj * obj)) :
  Forall2 (λ cl m, Page.contributes (Page.returned cl) m.1 m.2)
          (Page.lp_calls (Page.run_layers ls c Page.empty_accs w)) ms →
  map_disjoint_list ms.*1 → map_disjoint_list ms.*2 →
  Page.lp_exit (Page.run_layers ls c Page.empty_accs w) = None ∧
  Page.lp_accs (Page.run_layers ls c Page.empty_accs w)
    = {| Page.data := delete "__proto__" (⋃ ms.*1);
         Page.props := delete "__proto__" (⋃ ms.*2) |}.
Proof.
  intros Hc Hdd Hdp.
  assert (Hx : Page.lp_exit (Page.run_layers ls c Page.empty_accs w) = None).
  { apply page_exit_None. clear Hdd Hdp.
    induction Hc as [|cl m cls ms' Hcl _ IH]; constructor; [| done].
    apply page_contributes in Hcl as [(k & Hk & Hs) _].
    destruct (Hs (Page.seen cl)) as [a' Ha']. by exists k, a'. }
  split; [exact Hx |].
  destruct (page_accs_fold _ _ _ _ (lookup_empty _) (lookup_empty _) Hx) as [Hd Hp].
  destruct (Page.lp_accs (Page.run_layers ls c Page.empty_accs w)) as [d p].
  simpl in Hd, Hp. rewrite Hd, Hp. f_equal.
  - rewrite (foldl_contributions _ (delete "__proto__") _ ms.*1).
    + by apply foldl_disjoint_union.
    + apply Forall2_fmap_r. eapply Forall2_impl; [exact Hc |]. intros cl m Hcl. cbv beta.
      by apply page_contributes in Hcl as (_ & -> & _).
  - rewrite (foldl_contributions _ (delete "__proto__") _ ms.*2).
    + by apply foldl_disjoint_union.
    + apply Forall2_fmap_r. eapply Forall2_impl; [exact Hc |]. intros cl m Hcl. cbv beta.
      by apply page_contributes in Hcl as (_ & _ & ->).
Qed.

(** A chain of layers each of which, however it is called, contributes the
    object [m l]: every layer is called, and its call contributes [m l]. *)
Lemma api_constant_contributions (ls : list (Api.ApiLayer Ctx W))
    (m : Api.ApiLayer Ctx W → obj) (c : Ctx) :
  (∀ l d w, l ∈ ls → Api.contributes (l c d w).2 (m l)) →
  ∀ d w, Forall2 (λ cl x, Api.contributes (Api.returned cl) x)
                 (Api.lp_calls (Api.run_layers ls c d w)) (fmap (M:=list) m ls).
Proof.
  induction ls as [|l ls IH]; intros Hls d w; simpl; [constructor |].
  pose proof (Hls l d w ltac:(by left)) as Hl.
  destruct (l c d w) as [w' r]. simpl in Hl.
  destruct (proj1 (api_contributes _ _ Hl) d) as [d' ->]. simpl.
  constructor; [done |]. apply IH. intros l0 d0 w0 Hl0. apply Hls. by right.
Qed.

Lemma page_constant_contributions (ls : list (Page.Layer Ctx W))
    (md mp : Page.Layer Ctx W → obj) (c : Ctx) :
  (∀ (l : Page.Layer Ctx W) a w, l ∈ ls → Page.contributes (l c a w).2 (md l) (mp l)) →
  ∀ a w, Forall2 (λ cl x, Page.contributes (Page.returned cl) x.1 x.2)
                 (Page.lp_calls (Page.run_layers ls c a w))
                 (fmap (M:=list) (λ l, (md l, mp l)) ls).
Proof.
  induction ls as [|l ls IH]; intros Hls a w; simpl; [constructor |].
  pose proof (Hls l a w ltac:(by left)) as Hl.
  destruct (l c a w) as [w' r]. simpl in Hl.
  destruct (page_contributes _ _ _ Hl) as [(k & [= <-] & Hs) _].
  destruct (Hs a) as [a' ->]. simpl.
  constructor; [done |]. apply IH. intros l0 a0 w0 Hl0. apply Hls. by right.
Qed.

End Disjoint.

(** C8, as stated, fails: the content does depend on the order when a
    layer's contribution depends on the data it is handed.  [api_a]
    contributes the key [a] and [api_copy] the key [b], with the value of
    [data.a]; the keys are disjoint and no layer stops the run, and the two
    orders end with different contents.  (The first half fails for a
    contribution that owns a [__proto__] property, which the accumulator
    does not get.) *)
Lemma C8_counterexample :
  Api.returned <$> Api.lp_calls (Api.run_layers [Sample.api_a; Sample.api_copy] () ∅ [])
    = [Return (VObj {[ "data" := VObj {[ "a" := VStr "a" ]} ]});
       Return (VObj {[ "data" := VObj {[ "b" := VStr "a" ]} ]})]
  ∧ Api.returned <$> Api.lp_calls (Api.run_layers [Sample.api_copy; Sample.api_a] () ∅ [])
    = [Return (VObj {[ "data" := VObj {[ "b" := VUndef ]} ]});
       Return (VObj {[ "data" := VObj {[ "a" := VStr "a" ]} ]})]
  ∧ Api.data_at_end (Api.handler_body [Sample.api_a; Sample.api_copy] Sample.api_final () [])
    = {[ "a" := VStr "a"; "b" := VStr "a" ]}
  ∧ Api.data_at_end (Api.handler_body [Sample.api_copy; Sample.api_a] Sample.api_final () [])
    = {[ "a" := VStr "a"; "b" := VUndef ]}
  ∧ Api.data_at_end (Api.handler_body [Sample.api_copy; Sample.api_a] Sample.api_final () [])
    ≠ Api.data_at_end (Api.handler_body [Sample.api_a; Sample.api_copy] Sample.api_final () [])
  ∧ Api.data_at_end (Api.handler_body [Sample.api_proto] Sample.api_final () [])
    ≠ ⋃ [Sample.with_proto].
Proof.
  repeat split; try (vm_compute; reflexivity).
  - intros H. apply (f_equal (λ d : obj, d !! "b")) in H. vm_compute in H. discriminate.
  - intros H. apply (f_equal (λ d : obj, d !! "__proto__")) in H. vm_compute in H.
    discriminate.
Qed.

(** C8, amended.  Layers with pairwise disjoint contributions.  When every
    call of the loop returned [undefined] or an object that does not end
    the run, and the objects the calls gave under [data] (under [props])
    are pairwise disjoint, the loop ran to its end and the accumulator is
    the union of these objects, a [__proto__] key left out: a key other
    than [__proto__] has a value in the accumulator exactly when one of the
    objects holds it.  When in addition every layer of the chain gives the
    same object [m l] ([md l] and [mp l] in the page flavor) however it is
    called, the loop over any permutation of the chain, started in any
    world, ends with this same accumulator. *)
Theorem C8_disjoint_contributions_give_their_union :
  (∀ (Ctx W : Type) (ls : list (Api.ApiLayer Ctx W)) (fn : Api.ApiFn Ctx W)
     (c : Ctx) (w : W) (ms : list obj),
     Forall2 (λ cl m, Api.contributes (Api.returned cl) m)
             (Api.lp_calls (Api.run_layers ls c ∅ w)) ms →
     map_disjoint_list ms →
     Api.lp_exit (Api.run_layers ls c ∅ w) = None ∧
     Api.data_at_end (Api.handler_body ls fn c w) = delete "__proto__" (⋃ ms) ∧
     ∀ (k : string) (v : value), k ≠ "__proto__" →
       (Api.data_at_end (Api.handler_body ls fn c w) !! k = Some v ↔
        ∃ m, m ∈ ms ∧ m !! k = Some v))
  ∧
  (∀ (Ctx W : Type) (ls : list (Page.Layer Ctx W)) (c : Ctx) (w : W)
     (ms : list (obj * obj)),
     Forall2 (λ cl m, Page.contributes (Page.returned cl) m.1 m.2)
             (Page.lp_calls (Page.run_layers ls c Page.empty_accs w)) ms →
     map_disjoint_list ms.*1 → map_disjoint_list ms.*2 →
     Page.lp_exit (Page.run_layers ls c Page.empty_accs w) = None ∧
     Page.lp_accs (Page.run_layers ls c Page.empty_accs w)
       = {| Page.data := delete "__proto__" (⋃ ms.*1);
            Page.props := delete "__proto__" (⋃ ms.*2) |} ∧
     ∀ (k : string) (v : value), k ≠ "__proto__" →
       (Page.data (Page.lp_accs (Page.run_layers ls c Page.empty_accs w)) !! k = Some v ↔
        ∃ m, m ∈ ms ∧ m.1 !! k = Some v) ∧
       (Page.props (Page.lp_accs (Page.run_layers ls c Page.empty_accs w)) !! k = Some v ↔
        ∃ m, m ∈ ms ∧ m.2 !! k = Some v))
  ∧
  (∀ (Ctx W : Type) (ls : list (Api.ApiLayer Ctx W)) (m : Api.ApiLayer Ctx W → obj)
     (c : Ctx),
     (∀ (l : Api.ApiLayer Ctx W) (d : obj) (w0 : W), l ∈ ls →
        Api.contributes (l c d w0).2 (m l)) →
     map_disjoint_list (fmap (M:=list) m ls) →
     ∀ (ls' : list (Api.ApiLayer Ctx W)) (w w' : W),
       ls' ≡ₚ ls →
       Api.lp_exit (Api.run_layers ls' c ∅ w') = None ∧
       Api.lp_data (Api.run_layers ls' c ∅ w') = delete "__proto__" (⋃ (fmap (M:=list) m ls)) ∧
       Api.lp_data (Api.run_layers ls' c ∅ w') = Api.lp_data (Api.run_layers ls c ∅ w))
  ∧
  (∀ (Ctx W : Type) (ls : list (Page.Layer Ctx W)) (md mp : Page.Layer Ctx W → obj)
     (c : Ctx),
     (∀ (l : Page.Layer Ctx W) (a : Page.accs) (w0 : W), l ∈ ls →
        Page.contributes (l c a w0).2 (md l) (mp l)) →
     map_disjoint_list (fmap (M:=list) md ls) → map_disjoint_list (fmap (M:=list) mp ls) →
     ∀ (ls' : list (Page.Layer Ctx W)) (w w' : W),
       ls' ≡ₚ ls →
       Page.lp_exit (Page.run_layers ls' c Page.empty_accs w') = None ∧
       Page.lp_accs (Page.run_layers ls' c Page.empty_accs w')
         = {| Page.data := delete "__proto__" (⋃ (fmap (M:=list) md ls));
              Page.props := delete "__proto__" (⋃ (fmap (M:=list) mp ls)) |} ∧
       Page.lp_accs (Page.run_layers ls' c Page.empty_accs w')
         = Page.lp_accs (Page.run_layers ls c Page.empty_accs w)).
Proof.
  split; [| split; [| split]].
  - intros Ctx W ls fn c w ms Hc Hdisj.
    destruct (api_disjoint_union ls c w ms Hc Hdisj) as [Hx Hd].
    split; [exact Hx |]. rewrite api_handler_data, Hd. split; [done |].
    intros k v Hk. by apply lookup_disjoint_union.
  - intros Ctx W ls c w ms Hc Hdd Hdp.
    destruct (page_disjoint_union ls c w ms Hc Hdd Hdp) as [Hx Ha].
    split; [exact Hx |]. rewrite Ha. split; [done |].
    intros k v Hk. cbn [Page.data Page.props].
    rewrite !lookup_disjoint_union by done. split.
    + split.
      * intros (m & Hm & Hv). apply list_elem_of_fmap in Hm as (x & -> & Hx'). eauto.
      * intros (x & Hx' & Hv). exists x.1. split; [| done]. by apply list_elem_of_fmap_2.
    + split.
      * intros (m & Hm & Hv). apply list_elem_of_fmap in Hm as (x & -> & Hx'). eauto.
      * intros (x & Hx' & Hv). exists x.2. split; [| done]. by apply list_elem_of_fmap_2.
  - intros Ctx W ls m c Hls Hdisj.
    assert (Hrun : ∀ ls' w', ls' ≡ₚ ls →
      Api.lp_exit (Api.run_layers ls' c ∅ w') = None ∧
      Api.lp_data (Api.run_layers ls' c ∅ w') = delete "__proto__" (⋃ (fmap (M:=list) m ls))).
    { intros ls' w' Hperm.
      assert (Hdisj' : map_disjoint_list (fmap (M:=list) m ls')) by by rewrite Hperm.
      destruct (api_disjoint_union ls' c w' (fmap (M:=list) m ls')) as [Hx Hd];
        [| done |].
      { apply api_constant_contributions. intros l d w0 Hl. apply Hls.
        by rewrite <- Hperm. }
      split; [exact Hx |]. rewrite Hd. f_equal.
      apply union_list_disjoint_perm; [done |]. by rewrite Hperm. }
    intros ls' w w' Hperm.
    destruct (Hrun ls' w' Hperm) as [Hx Hd]. destruct (Hrun ls w) as [_ Hd0]; [done |].
    split; [exact Hx |]. split; [exact Hd |]. by rewrite Hd, Hd0.
  - intros Ctx W ls md mp c Hls Hdd Hdp.
    assert (Hrun : ∀ ls' w', ls' ≡ₚ ls →
      Page.lp_exit (Page.run_layers ls' c Page.empty_accs w') = None ∧
      Page.lp_accs (Page.run_layers ls' c Page.empty_accs w')
        = {| Page.data := delete "__proto__" (⋃ (fmap (M:=list) md ls));
             Page.props := delete "__proto__" (⋃ (fmap (M:=list) mp ls)) |}).
    { intros ls' w' Hperm.
      assert (Hdd' : map_disjoint_list (fmap (M:=list) md ls')) by by rewrite Hperm.
      assert (Hdp' : map_disjoint_list (fmap (M:=list) mp ls')) by by rewrite Hperm.
      destruct (page_disjoint_union ls' c w' (fmap (M:=list) (λ l, (md l, mp l)) ls'))
        as [Hx Ha].
      { apply page_constant_contributions. intros l a w0 Hl. apply Hls.
        by rewrite <- Hperm. }
      { by rewrite <- list_fmap_compose. }
      { by rewrite <- list_fmap_compose. }
      split; [exact Hx |]. rewrite Ha, <- !list_fmap_compose. f_equal; f_equal.
      - apply union_list_disjoint_perm; [done |]. by rewrite Hperm.
      - apply union_list_disjoint_perm; [done |]. by rewrite Hperm. }
    intros ls' w w' Hperm.
    destruct (Hrun ls' w' Hperm) as [Hx Ha]. destruct (Hrun ls w) as [_ Ha0]; [done |].
    split; [exact Hx |]. split; [exact Ha |]. by rewrite Ha, Ha0.
Qed.

Lemma C8_witness :
  Api.data_at_end (Api.handler_body
    [Sample.api_a; Sample.api_empty; Sample.api_b; Sample.api_c] Sample.api_final () [])
  = {[ "a" := VStr "a"; "b" := VStr "b"; "c" := VStr "c" ]}
  ∧
  Api.lp_data (Api.run_layers [Sample.api_c; Sample.api_a; Sample.api_empty; Sample.api_b]
                 () ∅ ["earlier"])
  = {[ "a" := VStr "a"; "b" := VStr "b"; "c" := VStr "c" ]}
  ∧
  Page.lp_accs (Page.run_layers [Sample.page_data_a; Sample.page_props_b] ()
                  Page.empty_accs [])
  = {| Page.data := {[ "a" := VStr "a" ]}; Page.props := {[ "b" := VStr "b" ]} |}
  ∧
  Page.lp_accs (Page.run_layers [Sample.page_props_b; Sample.page_data_a] ()
                  Page.empty_accs ["earlier"])
  = {| Page.data := {[ "a" := VStr "a" ]}; Page.props := {[ "b" := VStr "b" ]} |}.
Proof.
  destruct C8_disjoint_contributions_give_their_union
    as (Hapi & Hpage & Hapi_any & Hpage_any).
  split; [| split; [| split]].
  - destruct (Hapi unit (list string)
      [Sample.api_a; Sample.api_empty; Sample.api_b; Sample.api_c] Sample.api_final () []
      [{[ "a" := VStr "a" ]}; ∅; {[ "b" := VStr "b" ]}; {[ "c" := VStr "c" ]}])
      as (_ & Hd & _).
    + repeat (constructor; [contributes_by_eval |]). constructor.
    + disjoint_list_by_eval.
    + etrans; [exact Hd |]. vm_compute. reflexivity.
  - destruct (Hapi_any unit (list string)
      [Sample.api_a; Sample.api_empty; Sample.api_b; Sample.api_c]
      (λ l, Api.partial (l () ∅ []).2) ()) with
      (ls' := [Sample.api_c; Sample.api_a; Sample.api_empty; Sample.api_b])
      (w := @nil string) (w' := ["earlier"]) as (_ & Hd & _).
    + intros l d w0 Hl.
      repeat (apply elem_of_cons in Hl as [-> | Hl]); [| | | | by apply elem_of_nil in Hl];
        contributes_by_eval.
    + disjoint_list_by_eval.
    + apply (Permutation_cons_append [_; _; _]).
    + etrans; [exact Hd |]. vm_compute. reflexivity.
  - destruct (Hpage unit (list string) [Sample.page_data_a; Sample.page_props_b] () []
      [({[ "a" := VStr "a" ]}, ∅); (∅, {[ "b" := VStr "b" ]})]) as (_ & Ha & _).
    + repeat (constructor; [contributes_by_eval |]). constructor.
    + disjoint_list_by_eval.
    + disjoint_list_by_eval.
    + etrans; [exact Ha |]. vm_compute. reflexivity.
  - destruct (Hpage_any unit (list string) [Sample.page_data_a; Sample.page_props_b]
      (λ l, Page.partial_data (l () Page.empty_accs []).2)
      (λ l, Page.partial_props (l () Page.empty_accs []).2) ()) with
      (ls' := [Sample.page_props_b; Sample.page_data_a])
      (w := @nil string) (w' := ["earlier"]) as (_ & Ha & _).
    + intros l a w0 Hl.
      repeat (apply elem_of_cons in Hl as [-> | Hl]); [| | by apply elem_of_nil in Hl];
        contributes_by_eval.
    + disjoint_list_by_eval.
    + disjoint_list_by_eval.
    + apply perm_swap.
    + etrans; [exact Ha |]. vm_compute. reflexivity.
Defined.

(** ** Layers only *)

Lemma page_calls_without_final {Ctx W} (ls : list (Page.Layer Ctx W)) (c : Ctx) (w : W) :
  Page.calls (Page.handler_body ls None c w)
  = Page.lp_calls (Page.run_layers ls c Page.empty_accs w).
Proof.
  unfold Page.handler_body.
  by destruct (Page.lp_exit (Page.run_layers ls c Page.empty_accs w)).
Qed.

(** C9.  [handler()] without a final function, in the page flavor.  When
    every call of the run returns an object without [notFound] and
    [redirect], the calls are the calls to the layers of the chain, one each
    and in order, with no final-handler call; the result is [{ props }]
    where [props] is what the loop accumulated: under every key other than
    [__proto__] it holds what the own enumerable properties of the layers'
    [props], assigned in order to the empty object, hold. *)
Theorem C9_layers_only_handler :
  ∀ (Ctx W : Type) (ls : list (Page.Layer Ctx W)) (c : Ctx) (w : W),
    Forall (λ cl, ∃ o, Page.returned cl = Return (VObj o) ∧
                       o !! "notFound" = None ∧ o !! "redirect" = None)
           (Page.calls (Page.handler_body ls None c w)) →
    Page.target <$> Page.calls (Page.handler_body ls None c w) = Page.Called <$> ls ∧
    Page.outcome (Page.handler_body ls None c w)
      = Return (VObj {[ "props" :=
          VObj (Page.props (Page.accs_at_end (Page.handler_body ls None c w))) ]}) ∧
    (∀ k : string, k ≠ "__proto__" →
       Page.props (Page.accs_at_end (Page.handler_body ls None c w)) !! k
         = foldl (λ acc cl, Page.partial_props (Page.returned cl) ∪ acc) ∅
                 (Page.calls (Page.handler_body ls None c w)) !! k) ∧
    Page.world (Page.handler_body ls None c w)
      = Page.lp_world (Page.run_layers ls c Page.empty_accs w).
Proof.
  intros Ctx W ls c w. rewrite page_calls_without_final. intros Hcalls.
  assert (Hx : Page.lp_exit (Page.run_layers ls c Page.empty_accs w) = None).
  { apply page_exit_None. eapply Forall_impl; [exact Hcalls |].
    intros cl (o & Ho & Hn & Hr). cbv beta. exists (Return (VObj o)).
    rewrite page_step_object by by apply page_ends_false. eauto. }
  split; [by apply page_calls_all |].
  unfold Page.handler_body. cbv zeta. rewrite Hx. cbn [Page.outcome Page.accs_at_end
    Page.calls Page.world].
  split; [reflexivity |]. split; [| reflexivity].
  intros k _. by rewrite (proj2 (page_accs_fold _ _ _ _ (lookup_empty _) (lookup_empty _) Hx)).
Qed.

Lemma C9_witness :
  Page.outcome (Page.handler_body
    [Sample.page_a (VStr "a"); Sample.page_proto; Sample.page_b] None () [])
  = Return (VObj {[ "props" :=
      VObj {[ "a" := VStr "a"; "k" := VNum 1; "b" := VStr "b" ]} ]}).
Proof.
  destruct (C9_layers_only_handler unit (list string)
    [Sample.page_a (VStr "a"); Sample.page_proto; Sample.page_b] () [])
    as (_ & Hout & _).
  - repeat constructor; eexists;
      (split; [reflexivity |]); split; vm_compute; reflexivity.
  - rewrite Hout. vm_compute. reflexivity.
Defined.

(** ** One invocation after another *)

Section Fresh.
Context {Ctx W : Type}.

(** Layers whose completion does not depend on the world make the same calls,
    with the same arguments and results, from any two worlds. *)
Lemma api_loop_same (ls : list (Api.ApiLayer Ctx W)) (c : Ctx) :
  (∀ l d w w', l ∈ ls → (l c d w).2 = (l c d w').2) →
  ∀ d w1 w2,
    Api.lp_calls (Api.run_layers ls c d w1) = Api.lp_calls (Api.run_layers ls c d w2) ∧
    Api.lp_data (Api.run_layers ls c d w1) = Api.lp_data (Api.run_layers ls c d w2) ∧
    Api.lp_exit (Api.run_layers ls c d w1) = Api.lp_exit (Api.run_layers ls c d w2).
Proof.
  induction ls as [|l ls IH]; intros Hls d w1 w2; simpl; [done |].
  pose proof (Hls l d w1 w2 ltac:(by left)) as Hl.
  destruct (l c d w1) as [w1' r1], (l c d w2) as [w2' r2]. simpl in Hl. subst r2.
  destruct (Api.step_layer d r1) as [d'|k]; [| done].
  destruct (IH (λ l0 d0 w0 w0' Hl0, Hls l0 d0 w0 w0' ltac:(by right)) d' w1' w2')
    as (Hc & Hd & Hx).
  simpl. by rewrite Hc, Hd, Hx.
Qed.

Lemma page_loop_same (ls : list (Page.Layer Ctx W)) (c : Ctx) :
  (∀ l a w w', l ∈ ls → (l c a w).2 = (l c a w').2) →
  ∀ a w1 w2,
    Page.lp_calls (Page.run_layers ls c a w1) = Page.lp_calls (Page.run_layers ls c a w2) ∧
    Page.lp_accs (Page.run_layers ls c a w1) = Page.lp_accs (Page.run_layers ls c a w2) ∧
    Page.lp_exit (Page.run_layers ls c a w1) = Page.lp_exit (Page.run_layers ls c a w2).
Proof.
  induction ls as [|l ls IH]; intros Hls a w1 w2; simpl; [done |].
  pose proof (Hls l a w1 w2 ltac:(by left)) as Hl.
  destruct (l c a w1) as [w1' r1], (l c a w2) as [w2' r2]. simpl in Hl. subst r2.
  destruct (Page.step_layer a r1) as [a'|k]; [| done].
  destruct (IH (λ l0 a0 w0 w0' Hl0, Hls l0 a0 w0 w0' ltac:(by right)) a' w1' w2')
    as (Hc & Ha & Hx).
  simpl. by rewrite Hc, Ha, Hx.
Qed.

(** The first call of a run is handed the empty accumulators. *)
Lemma api_first_call (ls : list (Api.ApiLayer Ctx W)) (fn : Api.ApiFn Ctx W) (c : Ctx)
    (w : W) (cl : Api.call Ctx W) :
  head (Api.calls (Api.handler_body ls fn c w)) = Some cl → Api.seen cl = ∅.
Proof.
  unfold Api.handler_body. destruct ls as [|l ls]; simpl.
  - destruct (fn c ∅ w) as [w' r]. simpl. by intros [= <-].
  - destruct (l c ∅ w) as [w' r].
    destruct (Api.step_layer ∅ r) as [d'|k]; simpl.
    + destruct (Api.lp_exit (Api.run_layers ls c d' w')); simpl.
      * by intros [= <-].
      * destruct (fn c _ _). simpl. by intros [= <-].
    + by intros [= <-].
Qed.

Lemma page_first_call (ls : list (Page.Layer Ctx W)) (fn : option (Page.PageFn Ctx W))
    (c : Ctx) (w : W) (cl : Page.call Ctx W) :
  head (Page.calls (Page.handler_body ls fn c w)) = Some cl →
  Page.seen cl = Page.empty_accs.
Proof.
  unfold Page.handler_body. destruct ls as [|l ls]; simpl.
  - destruct fn as [f|]; [| done].
    destruct (f c Page.empty_accs w) as [w' r].
    destruct (Page.step_final _ r). simpl. by intros [= <-].
  - destruct (l c Page.empty_accs w) as [w' r].
    destruct (Page.step_layer Page.empty_accs r) as [a'|k]; simpl.
    + destruct (Page.lp_exit (Page.run_layers ls c a' w')); simpl.
      * by intros [= <-].
      * destruct fn as [f|]; simpl; [| by intros [= <-]].
        destruct (f c _ _). destruct (Page.step_final _ _). simpl. by intros [= <-].
    + by intros [= <-].
Qed.

End Fresh.

(** C10.  Every invocation of a compiled handler starts from empty
    accumulators: the first call it makes, whether to a layer or to the final
    handler, is handed [{}] ([{}] and [{}] in the page flavor), whatever the
    world it runs in, in particular the world an earlier invocation left.
    Hence, when the layers and the final handler complete in a way that does
    not depend on the world, two invocations of the same compiled handler on
    the same context make the same calls with the same arguments and
    results, finish with the same accumulators and give the same result. *)
Theorem C10_invocations_start_afresh :
  (∀ (Ctx W : Type) (h : Api.compiled Ctx W) (σ : Api.store Ctx W) (c : Ctx) (w : W)
     (r : Api.run Ctx W) (cl : Api.call Ctx W),
     Api.invoke h σ c w = Some r → head (Api.calls r) = Some cl → Api.seen cl = ∅)
  ∧
  (∀ (Ctx W : Type) (h : Api.compiled Ctx W) (σ : Api.store Ctx W) (c : Ctx) (w1 w2 : W)
     (r1 r2 : Api.run Ctx W) (ls : list (Api.ApiLayer Ctx W)),
     Factory.chain (Api.h_this h) σ = Some ls →
     (∀ (l : Api.ApiLayer Ctx W) d w w', l ∈ ls → (l c d w).2 = (l c d w').2) →
     (∀ d w w', (Api.h_fn h c d w).2 = (Api.h_fn h c d w').2) →
     Api.invoke h σ c w1 = Some r1 → Api.invoke h σ c w2 = Some r2 →
     Api.calls r1 = Api.calls r2 ∧ Api.data_at_end r1 = Api.data_at_end r2 ∧
     Api.outcome r1 = Api.outcome r2)
  ∧
  (∀ (Ctx W : Type) (h : Page.compiled Ctx W) (σ : Page.store Ctx W) (c : Ctx) (w : W)
     (r : Page.run Ctx W) (cl : Page.call Ctx W),
     Page.invoke h σ c w = Some r → head (Page.calls r) = Some cl →
     Page.seen cl = {| Page.data := ∅; Page.props := ∅ |})
  ∧
  (∀ (Ctx W : Type) (h : Page.compiled Ctx W) (σ : Page.store Ctx W) (c : Ctx) (w1 w2 : W)
     (r1 r2 : Page.run Ctx W) (ls : list (Page.Layer Ctx W)),
     Factory.chain (Page.h_this h) σ = Some ls →
     (∀ (l : Page.Layer Ctx W) a w w', l ∈ ls → (l c a w).2 = (l c a w').2) →
     (∀ f a w w', Page.h_fn h = Some f → (f c a w).2 = (f c a w').2) →
     Page.invoke h σ c w1 = Some r1 → Page.invoke h σ c w2 = Some r2 →
     Page.calls r1 = Page.calls r2 ∧ Page.accs_at_end r1 = Page.accs_at_end r2 ∧
     Page.outcome r1 = Page.outcome r2).
Proof.
  split; [| split; [| split]].
  - intros Ctx W h σ c w r cl. unfold Api.invoke.
    destruct (Factory.chain (Api.h_this h) σ) as [ls|]; [| done].
    simpl. intros [= <-]. apply api_first_call.
  - intros Ctx W h σ c w1 w2 r1 r2 ls Hch Hls Hfn. unfold Api.invoke.
    rewrite Hch. simpl. intros [= <-] [= <-].
    destruct (api_loop_same ls c Hls ∅ w1 w2) as (Hc & Hd & Hx).
    unfold Api.handler_body. cbv zeta. rewrite <- Hc, <- Hd, <- Hx.
    destruct (Api.lp_exit (Api.run_layers ls c ∅ w1)); [done |].
    pose proof (Hfn (Api.lp_data (Api.run_layers ls c ∅ w1))
      (Api.lp_world (Api.run_layers ls c ∅ w1))
      (Api.lp_world (Api.run_layers ls c ∅ w2))) as Hf.
    destruct (Api.h_fn h c _ (Api.lp_world (Api.run_layers ls c ∅ w1))) as [w1' k1].
    destruct (Api.h_fn h c _ (Api.lp_world (Api.run_layers ls c ∅ w2))) as [w2' k2].
    simpl in Hf. by subst k2.
  - intros Ctx W h σ c w r cl. unfold Page.invoke.
    destruct (Factory.chain (Page.h_this h) σ) as [ls|]; [| done].
    simpl. intros [= <-]. apply page_first_call.
  - intros Ctx W h σ c w1 w2 r1 r2 ls Hch Hls Hfn. unfold Page.invoke.
    rewrite Hch. simpl. intros [= <-] [= <-].
    destruct (page_loop_same ls c Hls Page.empty_accs w1 w2) as (Hc & Ha & Hx).
    unfold Page.handler_body. cbv zeta. rewrite <- Hc, <- Ha, <- Hx.
    destruct (Page.lp_exit (Page.run_layers ls c Page.empty_accs w1)); [done |].
    destruct (Page.h_fn h) as [f|]; [| done].
    pose proof (Hfn f (Page.lp_accs (Page.run_layers ls c Page.empty_accs w1))
      (Page.lp_world (Page.run_layers ls c Page.empty_accs w1))
      (Page.lp_world (Page.run_layers ls c Page.empty_accs w2)) eq_refl) as Hf.
    destruct (f c _ (Page.lp_world (Page.run_layers ls c Page.empty_accs w1))) as [w1' k1].
    destruct (f c _ (Page.lp_world (Page.run_layers ls c Page.empty_accs w2))) as [w2' k2].
    simpl in Hf. subst k2. by destruct (Page.step_final _ k1).
Qed.

Lemma C10_witness :
  Api.outcome (Api.handler_body [Sample.layer1] Sample.api_echo () ["layer1"; "H"])
  = Api.outcome (Api.handler_body [Sample.layer1] Sample.api_echo () [])
  ∧
  Page.outcome (Page.handler_body [Sample.page_layer1] None () ["layer1"])
  = Page.outcome (Page.handler_body [Sample.page_layer1] None () []).
Proof.
  destruct C10_invocations_start_afresh as (_ & Hapi & _ & Hpage). split.
  - assert (Hls : ∀ (l : Api.ApiLayer unit (list string)) d w w',
              l ∈ [Sample.layer1] → (l () d w).2 = (l () d w').2).
    { intros l d w w' Hl. apply list_elem_of_singleton in Hl as ->. reflexivity. }
    assert (Hfn : ∀ d (w w' : list string),
              (Sample.api_echo () d w).2 = (Sample.api_echo () d w').2).
    { intros d w w'. reflexivity. }
    exact (proj2 (proj2 (Hapi unit (list string)
      (Api.handler Sample.middleware Sample.api_echo)
      Sample.middleware_store () ["layer1"; "H"] [] _ _ [Sample.layer1]
      eq_refl Hls Hfn eq_refl eq_refl))).
  - assert (Hls : ∀ (l : Page.Layer unit (list string)) a w w',
              l ∈ [Sample.page_layer1] → (l () a w).2 = (l () a w').2).
    { intros l a w w' Hl. apply list_elem_of_singleton in Hl as ->. reflexivity. }
    assert (Hfn : ∀ (f : Page.PageFn unit (list string)) a (w w' : list string),
              None = Some f → (f () a w).2 = (f () a w').2).
    { intros f a w w' Hf. discriminate. }
    exact (proj2 (proj2 (Hpage unit (list string)
      (Page.handler Sample.page_middleware None)
      Sample.page_middleware_store () ["layer1"] [] _ _ [Sample.page_layer1]
      eq_refl Hls Hfn eq_refl eq_refl))).
Defined.

(** * Further properties of the engine *)

(** ** Leaving the loop *)

Section ExitFacts.
Context {Ctx W : Type}.

(** The layer at which the loop is left decides the run. *)
Lemma api_exit_at (pre post : list (Api.ApiLayer Ctx W)) (l : Api.ApiLayer Ctx W)
    (fn : Api.ApiFn Ctx W) (c : Ctx) (w w' : W) (r k : completion) :
  Api.lp_exit (Api.run_layers pre c ∅ w) = None →
  l c (Api.lp_data (Api.run_layers pre c ∅ w))
      (Api.lp_world (Api.run_layers pre c ∅ w)) = (w', r) →
  Api.step_layer (Api.lp_data (Api.run_layers pre c ∅ w)) r = Exit k →
  Api.handler_body (pre ++ l :: post) fn c w =
    {| Api.world := w';
       Api.calls := Api.lp_calls (Api.run_layers pre c ∅ w) ++
         [{| Api.target := Api.Layer l;
             Api.seen := Api.lp_data (Api.run_layers pre c ∅ w);
             Api.returned := r |}];
       Api.data_at_end := Api.lp_data (Api.run_layers pre c ∅ w);
       Api.outcome := k |}.
Proof.
  intros Hpre Hl Hs. unfold Api.handler_body. rewrite api_run_layers_app. cbv zeta.
  rewrite Hpre. cbn [Api.run_layers]. by rewrite Hl, Hs.
Qed.

Lemma page_exit_at (pre post : list (Page.Layer Ctx W)) (l : Page.Layer Ctx W)
    (fn : option (Page.PageFn Ctx W)) (c : Ctx) (w w' : W) (r k : completion) :
  Page.lp_exit (Page.run_layers pre c Page.empty_accs w) = None →
  l c (Page.lp_accs (Page.run_layers pre c Page.empty_accs w))
      (Page.lp_world (Page.run_layers pre c Page.empty_accs w)) = (w', r) →
  Page.step_layer (Page.lp_accs (Page.run_layers pre c Page.empty_accs w)) r = Exit k →
  Page.handler_body (pre ++ l :: post) fn c w =
    {| Page.world := w';
       Page.calls := Page.lp_calls (Page.run_layers pre c Page.empty_accs w) ++
         [{| Page.target := Page.Called l;
             Page.seen := Page.lp_accs (Page.run_layers pre c Page.empty_accs w);
             Page.returned := r |}];
       Page.accs_at_end := Page.lp_accs (Page.run_layers pre c Page.empty_accs w);
       Page.outcome := k |}.
Proof.
  intros Hpre Hl Hs. unfold Page.handler_body. rewrite page_run_layers_app. cbv zeta.
  rewrite Hpre. cbn [Page.run_layers]. by rewrite Hl, Hs.
Qed.

(** The run of the page handler once the loop has run to its end and the
    final handler has completed. *)
Lemma page_final_at (ls : list (Page.Layer Ctx W)) (f : Page.PageFn Ctx W) (c : Ctx)
    (w w' : W) (r : completion) :
  Page.lp_exit (Page.run_layers ls c Page.empty_accs w) = None →
  f c (Page.lp_accs (Page.run_layers ls c Page.empty_accs w))
      (Page.lp_world (Page.run_layers ls c Page.empty_accs w)) = (w', r) →
  Page.handler_body ls (Some f) c w =
    {| Page.world := w';
       Page.calls := Page.lp_calls (Page.run_layers ls c Page.empty_accs w) ++
         [{| Page.target := Page.Final;
             Page.seen := Page.lp_accs (Page.run_layers ls c Page.empty_accs w);
             Page.returned := r |}];
       Page.accs_at_end :=
         (Page.step_final (Page.lp_accs (Page.run_layers ls c Page.empty_accs w)) r).1;
       Page.outcome :=
         (Page.step_final (Page.lp_accs (Page.run_layers ls c Page.empty_accs w)) r).2 |}.
Proof.
  intros Hx Hf. unfold Page.handler_body. cbv zeta. rewrite Hx, Hf.
  by destruct (Page.step_final _ r).
Qed.

End ExitFacts.

(** X1.  A layer that throws ends the run with what it threw.  When the
    loop reaches layer [l] of the chain [pre ++ l :: post] and [l] throws
    [e], the compiled handler throws [e]; the calls of the run are those of
    [pre] and the call to [l], so no layer of [post] and no final handler is
    called.  In the page flavor a final handler that throws [e] makes the
    compiled handler throw [e] as well, and no [{ props }] is returned. *)
Theorem X1_a_throw_ends_the_run :
  (∀ (Ctx W : Type) (pre post : list (Api.ApiLayer Ctx W)) (l : Api.ApiLayer Ctx W)
     (fn : Api.ApiFn Ctx W) (c : Ctx) (w w' : W) (e : value),
     Api.lp_exit (Api.run_layers pre c ∅ w) = None →
     l c (Api.lp_data (Api.run_layers pre c ∅ w))
         (Api.lp_world (Api.run_layers pre c ∅ w)) = (w', Throw e) →
     Api.outcome (Api.handler_body (pre ++ l :: post) fn c w) = Throw e ∧
     Api.world (Api.handler_body (pre ++ l :: post) fn c w) = w' ∧
     Api.target <$> Api.calls (Api.handler_body (pre ++ l :: post) fn c w)
       = Api.Layer <$> (pre ++ [l]))
  ∧
  (∀ (Ctx W : Type) (pre post : list (Page.Layer Ctx W)) (l : Page.Layer Ctx W)
     (fn : option (Page.PageFn Ctx W)) (c : Ctx) (w w' : W) (e : value),
     Page.lp_exit (Page.run_layers pre c Page.empty_accs w) = None →
     l c (Page.lp_accs (Page.run_layers pre c Page.empty_accs w))
         (Page.lp_world (Page.run_layers pre c Page.empty_accs w)) = (w', Throw e) →
     Page.outcome (Page.handler_body (pre ++ l :: post) fn c w) = Throw e ∧
     Page.world (Page.handler_body (pre ++ l :: post) fn c w) = w' ∧
     Page.target <$> Page.calls (Page.handler_body (pre ++ l :: post) fn c w)
       = Page.Called <$> (pre ++ [l]))
  ∧
  (∀ (Ctx W : Type) (ls : list (Page.Layer Ctx W)) (f : Page.PageFn Ctx W)
     (c : Ctx) (w w' : W) (e : value),
     Page.lp_exit (Page.run_layers ls c Page.empty_accs w) = None →
     f c (Page.lp_accs (Page.run_layers ls c Page.empty_accs w))
         (Page.lp_world (Page.run_layers ls c Page.empty_accs w)) = (w', Throw e) →
     Page.outcome (Page.handler_body ls (Some f) c w) = Throw e).
Proof.
  split; [| split].
  - intros Ctx W pre post l fn c w w' e Hpre Hl.
    rewrite (api_exit_at pre post l fn c w w' (Throw e) (Throw e) Hpre Hl eq_refl).
    cbn [Api.outcome Api.world Api.calls]. repeat split.
    by rewrite !fmap_app, (api_calls_all _ _ _ _ Hpre).
  - intros Ctx W pre post l fn c w w' e Hpre Hl.
    rewrite (page_exit_at pre post l fn c w w' (Throw e) (Throw e) Hpre Hl eq_refl).
    cbn [Page.outcome Page.world Page.calls]. repeat split.
    by rewrite !fmap_app, (page_calls_all _ _ _ _ Hpre).
  - intros Ctx W ls f c w w' e Hx Hf. by rewrite (page_final_at ls f c w w' _ Hx Hf).
Qed.

Lemma X1_witness :
  Api.outcome (Api.handler_body ([Sample.api_a] ++ Sample.api_throw :: [Sample.api_b])
                 Sample.api_final () []) = Throw (VStr "boom")
  ∧
  Page.outcome (Page.handler_body ([Sample.page_other] ++ Sample.page_throw :: [Sample.page_b])
                  None () []) = Throw (VStr "boom")
  ∧
  Page.outcome (Page.handler_body [Sample.page_other] (Some Sample.page_throw) () [])
    = Throw (VStr "boom").
Proof.
  destruct X1_a_throw_ends_the_run as (Hapi & Hpage & Hfinal). split; [| split].
  - exact (proj1 (Hapi unit (list string) [Sample.api_a] [Sample.api_b] Sample.api_throw
      Sample.api_final () [] ["L0"; "boom"] (VStr "boom") eq_refl eq_refl)).
  - exact (proj1 (Hpage unit (list string) [Sample.page_other] [Sample.page_b]
      Sample.page_throw None () [] ["L0"; "boom"] (VStr "boom") eq_refl eq_refl)).
  - exact (Hfinal unit (list string) [Sample.page_other] Sample.page_throw () []
      ["L0"; "boom"] (VStr "boom") eq_refl eq_refl).
Defined.

(** X2.  A result that is not an object raises a [TypeError].  In the api
    flavor a layer that returns a value other than [undefined] and other
    than an object ([null], a boolean, a number, a string) makes the
    compiled handler throw the [TypeError] of the [in] operator, and
    nothing after that layer is called.  In the page flavor the same
    happens for every value that is not an object, [undefined] included,
    whether a layer or the final handler returned it. *)
Theorem X2_a_result_that_is_no_object_raises :
  (∀ (Ctx W : Type) (pre post : list (Api.ApiLayer Ctx W)) (l : Api.ApiLayer Ctx W)
     (fn : Api.ApiFn Ctx W) (c : Ctx) (w w' : W) (v : value),
     Api.lp_exit (Api.run_layers pre c ∅ w) = None →
     l c (Api.lp_data (Api.run_layers pre c ∅ w))
         (Api.lp_world (Api.run_layers pre c ∅ w)) = (w', Return v) →
     v ≠ VUndef → (∀ o, v ≠ VObj o) →
     Api.outcome (Api.handler_body (pre ++ l :: post) fn c w) = Throw TypeError ∧
     Api.target <$> Api.calls (Api.handler_body (pre ++ l :: post) fn c w)
       = Api.Layer <$> (pre ++ [l]))
  ∧
  (∀ (Ctx W : Type) (pre post : list (Page.Layer Ctx W)) (l : Page.Layer Ctx W)
     (fn : option (Page.PageFn Ctx W)) (c : Ctx) (w w' : W) (v : value),
     Page.lp_exit (Page.run_layers pre c Page.empty_accs w) = None →
     l c (Page.lp_accs (Page.run_layers pre c Page.empty_accs w))
         (Page.lp_world (Page.run_layers pre c Page.empty_accs w)) = (w', Return v) →
     (∀ o, v ≠ VObj o) →
     Page.outcome (Page.handler_body (pre ++ l :: post) fn c w) = Throw TypeError ∧
     Page.target <$> Page.calls (Page.handler_body (pre ++ l :: post) fn c w)
       = Page.Called <$> (pre ++ [l]))
  ∧
  (∀ (Ctx W : Type) (ls : list (Page.Layer Ctx W)) (f : Page.PageFn Ctx W)
     (c : Ctx) (w w' : W) (v : value),
     Page.lp_exit (Page.run_layers ls c Page.empty_accs w) = None →
     f c (Page.lp_accs (Page.run_layers ls c Page.empty_accs w))
         (Page.lp_world (Page.run_layers ls c Page.empty_accs w)) = (w', Return v) →
     (∀ o, v ≠ VObj o) →
     Page.outcome (Page.handler_body ls (Some f) c w) = Throw TypeError).
Proof.
  split; [| split].
  - intros Ctx W pre post l fn c w w' v Hpre Hl Hu Ho.
    assert (Hs : ∀ d, Api.step_layer d (Return v) = Exit (Throw TypeError)).
    { intros d. destruct v; try done. by destruct (Ho m). }
    rewrite (api_exit_at pre post l fn c w w' _ _ Hpre Hl (Hs _)).
    cbn [Api.outcome Api.calls]. split; [done |].
    by rewrite !fmap_app, (api_calls_all _ _ _ _ Hpre).
  - intros Ctx W pre post l fn c w w' v Hpre Hl Ho.
    assert (Hs : ∀ a, Page.step_layer a (Return v) = Exit (Throw TypeError)).
    { intros a. destruct v; try done. by destruct (Ho m). }
    rewrite (page_exit_at pre post l fn c w w' _ _ Hpre Hl (Hs _)).
    cbn [Page.outcome Page.calls]. split; [done |].
    by rewrite !fmap_app, (page_calls_all _ _ _ _ Hpre).
  - intros Ctx W ls f c w w' v Hx Hf Ho.
    rewrite (page_final_at ls f c w w' _ Hx Hf). cbn [Page.outcome].
    destruct v; try done. by destruct (Ho m).
Qed.

Lemma X2_witness :
  Api.outcome (Api.handler_body ([Sample.api_a] ++ Sample.api_null :: [Sample.api_b])
                 Sample.api_final () []) = Throw TypeError
  ∧
  Page.outcome (Page.handler_body ([Sample.page_other] ++ Sample.page_num :: [Sample.page_b])
                  None () []) = Throw TypeError
  ∧
  Page.outcome (Page.handler_body [Sample.page_other] (Some Sample.page_void) () [])
    = Throw TypeError.
Proof.
  destruct X2_a_result_that_is_no_object_raises as (Hapi & Hpage & Hfinal).
  split; [| split].
  - refine (proj1 (Hapi unit (list string) [Sample.api_a] [Sample.api_b] Sample.api_null
      Sample.api_final () [] ["L0"; "null"] VNull eq_refl eq_refl _ _)); discriminate.
  - refine (proj1 (Hpage unit (list string) [Sample.page_other] [Sample.page_b]
      Sample.page_num None () [] ["L0"; "num"] (VNum 7) eq_refl eq_refl _)); discriminate.
  - refine (Hfinal unit (list string) [Sample.page_other] Sample.page_void () []
      ["L0"; "void"] VUndef eq_refl eq_refl _); discriminate.
Defined.

(** ** The store only grows *)

Section StoreFacts.
Context {L : Type}.
Implicit Types (σ : Factory.store L) (B : Factory.t).

Lemma alloc_keeps (arr : list L) σ :
  (∀ B0 (arr0 : list L), Factory.chain B0 σ = Some arr0 →
     Factory.chain B0 (Factory.alloc arr σ).2 = Some arr0).
Proof.
  pose proof (alloc_fresh arr σ) as Hf. intros B0 arr0.
  unfold Factory.chain, Factory.alloc, Factory.store in *. simpl in *.
  intros H0. rewrite lookup_insert_ne; [done |]. intros Heq. congruence.
Qed.

Lemma constructor_fresh σ :
  Factory.chain (Factory.constructor None σ).1 σ = None ∧
  Factory.chain (Factory.constructor None σ).1 (Factory.constructor None σ).2
    = Some ([] : list L) ∧
  (∀ B0 (arr0 : list L), Factory.chain B0 σ = Some arr0 →
     Factory.chain B0 (Factory.constructor None σ).2 = Some arr0).
Proof.
  pose proof (alloc_fresh ([] : list L) σ) as Hf.
  pose proof (alloc_keeps ([] : list L) σ) as Hs.
  unfold Factory.constructor, Factory.chain, Factory.alloc, Factory.store in *.
  simpl in *. split; [done |]. split; [apply lookup_insert_eq | done].
Qed.

(** Chained calls of [use] append their layers in the order of the calls. *)
Lemma use_all_spec B (fs : list L) σ (arr : list L) :
  Factory.chain B σ = Some arr →
  ∃ B' σ', Chained.use_all B fs σ = Some (B', σ') ∧
           Factory.chain B' σ' = Some (arr ++ fs) ∧
           (∀ B0 (arr0 : list L), Factory.chain B0 σ = Some arr0 →
     Factory.chain B0 σ' = Some arr0).
Proof.
  revert B σ arr. induction fs as [|x fs IH]; intros B σ arr HB; simpl.
  - exists B, σ. rewrite (right_id_L [] (++)). split; [done |]. split; [done |]. auto.
  - destruct (use_spec B x σ arr HB) as (B1 & σ1 & Hu & HB1 & _ & Hs1).
    rewrite Hu.
    destruct (IH B1 σ1 (arr ++ [x]) HB1) as (B' & σ' & Hall & HB' & Hs).
    exists B', σ'. split; [done |]. split.
    + by rewrite <- (assoc_L (++)) in HB'.
    + intros B0 arr0 H0. by apply Hs, Hs1.
Qed.

End StoreFacts.

Lemma api_invoke_kept {Ctx W} (h : Api.compiled Ctx W) (σ σ' : Api.store Ctx W)
    (c : Ctx) (w : W) (r : Api.run Ctx W) :
  (∀ B0 arr0, Factory.chain B0 σ = Some arr0 → Factory.chain B0 σ' = Some arr0) →
  Api.invoke h σ c w = Some r → Api.invoke h σ' c w = Some r.
Proof.
  intros Hs. unfold Api.invoke.
  destruct (Factory.chain (Api.h_this h) σ) as [ls|] eqn:Hc; [| done].
  by rewrite (Hs _ _ Hc).
Qed.

Lemma page_invoke_kept {Ctx W} (h : Page.compiled Ctx W) (σ σ' : Page.store Ctx W)
    (c : Ctx) (w : W) (r : Page.run Ctx W) :
  (∀ B0 arr0, Factory.chain B0 σ = Some arr0 → Factory.chain B0 σ' = Some arr0) →
  Page.invoke h σ c w = Some r → Page.invoke h σ' c w = Some r.
Proof.
  intros Hs. unfold Page.invoke.
  destruct (Factory.chain (Page.h_this h) σ) as [ls|] eqn:Hc; [| done].
  by rewrite (Hs _ _ Hc).
Qed.

(** X3.  A builder fresh from [apiMiddleware()], [serverMiddleware()] or
    [staticMiddleware()] has an empty chain in an array of its own, and
    every handler compiled before runs as it did.  Its api handler calls the
    final function alone, with [{}] as [data], and its result is that
    function's completion; its page handler without a final function calls
    nothing, leaves the world as it is and returns [{ props: {} }]. *)
Theorem X3_fresh_builders_have_an_empty_chain :
  (∀ (Ctx W : Type) (σ : Api.store Ctx W) (fn : Api.ApiFn Ctx W) (c : Ctx) (w : W),
     Factory.chain (Api.apiMiddleware σ).1 σ = None ∧
     Factory.chain (Api.apiMiddleware σ).1 (Api.apiMiddleware σ).2 = Some [] ∧
     (∀ h c0 w0 r, Api.invoke h σ c0 w0 = Some r →
                   Api.invoke h (Api.apiMiddleware σ).2 c0 w0 = Some r) ∧
     Api.invoke (Api.handler (Api.apiMiddleware σ).1 fn) (Api.apiMiddleware σ).2 c w
       = Some {| Api.world := (fn c ∅ w).1;
                 Api.calls := [{| Api.target := Api.Final; Api.seen := ∅;
                                  Api.returned := (fn c ∅ w).2 |}];
                 Api.data_at_end := ∅;
                 Api.outcome := (fn c ∅ w).2 |})
  ∧
  (∀ (Ctx W : Type) (σ : Page.store Ctx W) (c : Ctx) (w : W),
     Page.staticMiddleware σ = Page.serverMiddleware σ ∧
     Factory.chain (Page.serverMiddleware σ).1 σ = None ∧
     Factory.chain (Page.serverMiddleware σ).1 (Page.serverMiddleware σ).2 = Some [] ∧
     (∀ h c0 w0 r, Page.invoke h σ c0 w0 = Some r →
                   Page.invoke h (Page.serverMiddleware σ).2 c0 w0 = Some r) ∧
     Page.invoke (Page.handler (Page.serverMiddleware σ).1 None)
                 (Page.serverMiddleware σ).2 c w
       = Some {| Page.world := w; Page.calls := [];
                 Page.accs_at_end := Page.empty_accs;
                 Page.outcome := Return (VObj {[ "props" := VObj ∅ ]}) |}).
Proof.
  split.
  - intros Ctx W σ fn c w. unfold Api.apiMiddleware.
    destruct (constructor_fresh (L := Api.ApiLayer Ctx W) σ) as (Hold & Hnew & Hs).
    split; [done |]. split; [done |].
    split; [intros h c0 w0 r; by apply api_invoke_kept |].
    unfold Api.invoke, Api.handler. cbn [Api.h_this Api.h_fn].
    refine (eq_trans (f_equal (λ o, o ≫= λ layers, Some (Api.handler_body layers fn c w))
                        Hnew) _).
    simpl. unfold Api.handler_body. simpl. by destruct (fn c ∅ w).
  - intros Ctx W σ c w. unfold Page.staticMiddleware, Page.serverMiddleware.
    destruct (constructor_fresh (L := Page.Layer Ctx W) σ) as (Hold & Hnew & Hs).
    split; [done |]. split; [done |]. split; [done |].
    split; [intros h c0 w0 r; by apply page_invoke_kept |].
    unfold Page.invoke, Page.handler. cbn [Page.h_this Page.h_fn].
    exact (f_equal (λ o, o ≫= λ layers, Some (Page.handler_body layers None c w)) Hnew).
Qed.

(** X4.  Chained calls [B.use(l1)...use(ln)] on a builder whose chain is
    [arr] succeed and give a builder whose chain is [arr] followed by
    [l1 ... ln] in the order of the calls; its handler runs that chain.
    None of the calls changes an array that was there: a handler compiled
    before the calls runs afterwards as it did before. *)
Theorem X4_chained_use_appends_in_order :
  (∀ (Ctx W : Type) (σ : Api.store Ctx W) (B : Api.ApiMiddlewareFactory)
     (fs arr : list (Api.ApiLayer Ctx W)),
     Factory.chain B σ = Some arr →
     ∃ B' σ',
       Chained.use_all B fs σ = Some (B', σ') ∧
       Factory.chain B' σ' = Some (arr ++ fs) ∧
       (∀ fn c w, Api.invoke (Api.handler B' fn) σ' c w
                  = Some (Api.handler_body (arr ++ fs) fn c w)) ∧
       (∀ h c w r, Api.invoke h σ c w = Some r → Api.invoke h σ' c w = Some r))
  ∧
  (∀ (Ctx W : Type) (σ : Page.store Ctx W) (B : Page.PageMiddlewareFactory)
     (fs arr : list (Page.Layer Ctx W)),
     Factory.chain B σ = Some arr →
     ∃ B' σ',
       Chained.use_all B fs σ = Some (B', σ') ∧
       Factory.chain B' σ' = Some (arr ++ fs) ∧
       (∀ fn c w, Page.invoke (Page.handler B' fn) σ' c w
                  = Some (Page.handler_body (arr ++ fs) fn c w)) ∧
       (∀ h c w r, Page.invoke h σ c w = Some r → Page.invoke h σ' c w = Some r)).
Proof.
  split.
  - intros Ctx W σ B fs arr HB.
    destruct (use_all_spec B fs σ arr HB) as (B' & σ' & Hall & HB' & Hs).
    exists B', σ'. split; [done |]. split; [done |]. split.
    + intros fn c w. unfold Api.invoke, Api.handler. cbn [Api.h_this Api.h_fn].
      by rewrite HB'.
    + intros h c w r. by apply api_invoke_kept.
  - intros Ctx W σ B fs arr HB.
    destruct (use_all_spec B fs σ arr HB) as (B' & σ' & Hall & HB' & Hs).
    exists B', σ'. split; [done |]. split; [done |]. split.
    + intros fn c w. unfold Page.invoke, Page.handler. cbn [Page.h_this Page.h_fn].
      by rewrite HB'.
    + intros h c w r. by apply page_invoke_kept.
Qed.

Lemma X4_witness :
  (∃ B' σ',
     Chained.use_all Sample.middleware [Sample.layer2; Sample.layer3]
       Sample.middleware_store = Some (B', σ') ∧
     Api.world <$> Api.invoke (Api.handler B' Sample.api_final) σ' () []
       = Some ["layer1"; "layer2"; "layer3"; "H"])
  ∧
  (∃ B' σ',
     Chained.use_all Sample.page_middleware [Sample.page_layer2; Sample.page_layer3]
       Sample.page_middleware_store = Some (B', σ') ∧
     Page.world <$> Page.invoke (Page.handler B' None) σ' () []
       = Some ["layer1"; "layer2"; "layer3"]).
Proof.
  destruct X4_chained_use_appends_in_order as [Hapi Hpage]. split.
  - destruct (Hapi unit (list string) Sample.middleware_store Sample.middleware
      [Sample.layer2; Sample.layer3] [Sample.layer1] eq_refl)
      as (B' & σ' & Hall & _ & Hinv & _).
    exists B', σ'. split; [exact Hall |]. rewrite Hinv. reflexivity.
  - destruct (Hpage unit (list string) Sample.page_middleware_store Sample.page_middleware
      [Sample.page_layer2; Sample.page_layer3] [Sample.page_layer1] eq_refl)
      as (B' & σ' & Hall & _ & Hinv & _).
    exists B', σ'. split; [exact Hall |]. rewrite Hinv. reflexivity.
Defined.

Lemma X3_witness :
  Api.outcome <$> Api.invoke (Api.handler (Api.apiMiddleware Sample.middleware_store).1
                                Sample.api_echo)
                    (Api.apiMiddleware Sample.middleware_store).2 () []
  = Some (Return (VObj {[ "data" := VObj {[ "seen" := VObj ∅ ]} ]}))
  ∧
  Api.world <$> Api.invoke (Api.handler Sample.middleware Sample.api_final)
                  (Api.apiMiddleware Sample.middleware_store).2 () []
  = Some ["layer1"; "H"].
Proof.
  destruct X3_fresh_builders_have_an_empty_chain as [Hapi _].
  destruct (Hapi unit (list string) Sample.middleware_store Sample.api_echo () [])
    as (_ & _ & Hkept & Hinv).
  split.
  - rewrite Hinv. reflexivity.
  - rewrite (Hkept (Api.handler Sample.middleware Sample.api_final) () []
      (Api.handler_body [Sample.layer1] Sample.api_final () []) eq_refl).
    reflexivity.
Defined.

(** ** The order of the calls *)

Section OrderFacts.
Context {Ctx W : Type}.

(** A loop that is left early has called the layers up to the one that left
    it, and that one is a layer of the chain. *)
Lemma api_calls_until_exit (ls : list (Api.ApiLayer Ctx W)) (c : Ctx) (d : obj) (w : W)
    (k : completion) :
  Api.lp_exit (Api.run_layers ls c d w) = Some k →
  ∃ n, n < length ls ∧
       Api.target <$> Api.lp_calls (Api.run_layers ls c d w) = Api.Layer <$> take (S n) ls.
Proof.
  revert d w. induction ls as [|l ls IH]; intros d w; simpl; [done |].
  destruct (l c d w) as [w' r]. destruct (Api.step_layer d r) as [d'|k'].
  - cbn [Api.logged Api.lp_calls Api.lp_exit]. intros Hx.
    destruct (IH d' w' Hx) as (n & Hn & Hc). exists (S n). split; [lia |].
    rewrite fmap_cons, Hc. reflexivity.
  - intros _. exists 0. split; [lia |]. by rewrite take_0.
Qed.

Lemma page_calls_until_exit (ls : list (Page.Layer Ctx W)) (c : Ctx) (a : Page.accs)
    (w : W) (k : completion) :
  Page.lp_exit (Page.run_layers ls c a w) = Some k →
  ∃ n, n < length ls ∧
       Page.target <$> Page.lp_calls (Page.run_layers ls c a w)
         = Page.Called <$> take (S n) ls.
Proof.
  revert a w. induction ls as [|l ls IH]; intros a w; simpl; [done |].
  destruct (l c a w) as [w' r]. destruct (Page.step_layer a r) as [a'|k'].
  - cbn [Page.logged Page.lp_calls Page.lp_exit]. intros Hx.
    destruct (IH a' w' Hx) as (n & Hn & Hc). exists (S n). split; [lia |].
    rewrite fmap_cons, Hc. reflexivity.
  - intros _. exists 0. split; [lia |]. by rewrite take_0.
Qed.

End OrderFacts.

(** X5.  The layers are called one after the other in the order of the
    chain, each at most once and none skipped, and the final handler, if it
    is called, is called last and after all of them.  The calls of an api
    run are either all the layers followed by the final handler, or the
    layers up to some layer of the chain and nothing else; those of a page
    run are the layers up to some point of the chain, followed by the final
    handler only when all the layers were called and a final handler was
    given. *)
Theorem X5_calls_follow_the_chain :
  (∀ (Ctx W : Type) (ls : list (Api.ApiLayer Ctx W)) (fn : Api.ApiFn Ctx W)
     (c : Ctx) (w : W),
     Api.target <$> Api.calls (Api.handler_body ls fn c w)
       = (Api.Layer <$> ls) ++ [Api.Final]
     ∨ ∃ n, n < length ls ∧
            Api.target <$> Api.calls (Api.handler_body ls fn c w)
              = Api.Layer <$> take (S n) ls)
  ∧
  (∀ (Ctx W : Type) (ls : list (Page.Layer Ctx W)) (fn : option (Page.PageFn Ctx W))
     (c : Ctx) (w : W),
     (is_Some fn ∧
      Page.target <$> Page.calls (Page.handler_body ls fn c w)
        = (Page.Called <$> ls) ++ [Page.Final])
     ∨ (fn = None ∧
        Page.target <$> Page.calls (Page.handler_body ls fn c w) = Page.Called <$> ls)
     ∨ ∃ n, n < length ls ∧
            Page.target <$> Page.calls (Page.handler_body ls fn c w)
              = Page.Called <$> take (S n) ls).
Proof.
  split.
  - intros Ctx W ls fn c w. unfold Api.handler_body. cbv zeta.
    destruct (Api.lp_exit (Api.run_layers ls c ∅ w)) as [k|] eqn:Hx.
    + right. cbn [Api.calls]. by eapply api_calls_until_exit.
    + left. destruct (fn c _ _) as [w' r]. cbn [Api.calls].
      by rewrite fmap_app, (api_calls_all _ _ _ _ Hx).
  - intros Ctx W ls fn c w. unfold Page.handler_body. cbv zeta.
    destruct (Page.lp_exit (Page.run_layers ls c Page.empty_accs w)) as [k|] eqn:Hx.
    + right. right. cbn [Page.calls]. by eapply page_calls_until_exit.
    + destruct fn as [f|].
      * left. split; [by eexists |].
        destruct (f c _ _) as [w' r]. destruct (Page.step_final _ r).
        cbn [Page.calls]. by rewrite fmap_app, (page_calls_all _ _ _ _ Hx).
      * right. left. split; [done |]. cbn [Page.calls]. by apply page_calls_all.
Qed.

(** ** What a call is handed *)

Section SeenFacts.
Context {Ctx W : Type}.

(** A call of the loop is handed the partials of the calls before it,
    assigned in order on top of the loop's initial [data]. *)
Lemma api_loop_seen (ls : list (Api.ApiLayer Ctx W)) (c : Ctx) (d : obj) (w : W)
    (pre post : list (Api.call Ctx W)) (cl : Api.call Ctx W) :
  d !! "__proto__" = None →
  Api.lp_calls (Api.run_layers ls c d w) = pre ++ cl :: post →
  Api.seen cl = foldl (λ acc x, Api.partial (Api.returned x) ∪ acc) d pre.
Proof.
  revert d w pre. induction ls as [|l ls IH]; intros d w pre Hplain; simpl.
  { by destruct pre. }
  destruct (l c d w) as [w' r]. destruct (Api.step_layer d r) as [d'|k] eqn:Hs.
  - cbn [Api.logged Api.lp_calls]. destruct pre as [|p pre]; simpl.
    + by intros [= <- _].
    + intros [= <- Hrest]. simpl. rewrite <- (api_step_partial _ _ _ Hplain Hs).
      apply (IH d' w'); [| done]. by apply (api_step_plain _ _ _ Hplain Hs).
  - cbn [Api.lp_calls]. destruct pre as [|p pre]; simpl.
    + by intros [= <-].
    + intros [= _ Hrest]. by destruct pre.
Qed.

Lemma page_loop_seen (ls : list (Page.Layer Ctx W)) (c : Ctx) (a : Page.accs) (w : W)
    (pre post : list (Page.call Ctx W)) (cl : Page.call Ctx W) :
  Page.data a !! "__proto__" = None → Page.props a !! "__proto__" = None →
  Page.lp_calls (Page.run_layers ls c a w) = pre ++ cl :: post →
  Page.data (Page.seen cl)
    = foldl (λ acc x, Page.partial_data (Page.returned x) ∪ acc) (Page.data a) pre ∧
  Page.props (Page.seen cl)
    = foldl (λ acc x, Page.partial_props (Page.returned x) ∪ acc) (Page.props a) pre.
Proof.
  revert a w pre. induction ls as [|l ls IH]; intros a w pre Hpd Hpp; simpl.
  { by destruct pre. }
  destruct (l c a w) as [w' r]. destruct (Page.step_layer a r) as [a'|k] eqn:Hs.
  - cbn [Page.logged Page.lp_calls]. destruct pre as [|p pre]; simpl.
    + by intros [= <- _].
    + intros [= <- Hrest]. cbn [foldl Page.returned].
      destruct (page_step_partial _ _ _ Hpd Hpp Hs) as [Hd Hp]. rewrite <- Hd, <- Hp.
      destruct (page_step_plain _ _ _ Hpd Hpp Hs) as [Hd' Hp'].
      by apply (IH a' w').
  - cbn [Page.lp_calls]. destruct pre as [|p pre]; simpl.
    + by intros [= <-].
    + intros [= _ Hrest]. by destruct pre.
Qed.

(** Where a call stands in [xs ++ [y]]: within [xs], or it is [y]. *)
Lemma split_at_last {A} (xs pre post : list A) (x y : A) :
  pre ++ x :: post = xs ++ [y] →
  (∃ post', xs = pre ++ x :: post') ∨ (xs = pre ∧ x = y ∧ post = []).
Proof.
  destruct post as [|z post _] using rev_ind.
  - intros H. apply (app_inj_tail pre xs x y) in H as [-> ->]. by right.
  - rewrite app_comm_cons, (assoc_L (++)). intros H.
    apply app_inj_tail in H as [<- _]. left. by exists post.
Qed.

(** The same for the calls of a whole run, the final handler's included. *)
Lemma api_run_seen (ls : list (Api.ApiLayer Ctx W)) (fn : Api.ApiFn Ctx W) (c : Ctx)
    (w : W) (pre post : list (Api.call Ctx W)) (cl : Api.call Ctx W) :
  Api.calls (Api.handler_body ls fn c w) = pre ++ cl :: post →
  Api.seen cl = foldl (λ acc x, Api.partial (Api.returned x) ∪ acc) ∅ pre.
Proof.
  unfold Api.handler_body. cbv zeta.
  destruct (Api.lp_exit (Api.run_layers ls c ∅ w)) as [k|] eqn:Hx.
  - cbn [Api.calls]. apply api_loop_seen, lookup_empty.
  - destruct (fn c _ _) as [w' r]. cbn [Api.calls]. intros Hc. symmetry in Hc.
    apply split_at_last in Hc as [[post' Hc] | (Hc & -> & _)].
    + eapply api_loop_seen; [apply lookup_empty | done].
    + simpl. rewrite <- Hc. apply api_data_fold; [apply lookup_empty | done].
Qed.

Lemma page_run_seen (ls : list (Page.Layer Ctx W)) (fn : option (Page.PageFn Ctx W))
    (c : Ctx) (w : W) (pre post : list (Page.call Ctx W)) (cl : Page.call Ctx W) :
  Page.calls (Page.handler_body ls fn c w) = pre ++ cl :: post →
  Page.data (Page.seen cl)
    = foldl (λ acc x, Page.partial_data (Page.returned x) ∪ acc) ∅ pre ∧
  Page.props (Page.seen cl)
    = foldl (λ acc x, Page.partial_props (Page.returned x) ∪ acc) ∅ pre.
Proof.
  unfold Page.handler_body. cbv zeta.
  destruct (Page.lp_exit (Page.run_layers ls c Page.empty_accs w)) as [k|] eqn:Hx.
  - cbn [Page.calls]. apply (page_loop_seen ls c Page.empty_accs); apply lookup_empty.
  - destruct fn as [f|];
      [| cbn [Page.calls]; apply (page_loop_seen ls c Page.empty_accs); apply lookup_empty].
    destruct (f c _ _) as [w' r]. destruct (Page.step_final _ r).
    cbn [Page.calls]. intros Hc. symmetry in Hc.
    apply split_at_last in Hc as [[post' Hc] | (Hc & -> & _)].
    + exact (page_loop_seen ls c Page.empty_accs w pre post' cl
               (lookup_empty _) (lookup_empty _) Hc).
    + simpl. rewrite <- Hc.
      exact (page_accs_fold ls c Page.empty_accs w (lookup_empty _) (lookup_empty _) Hx).
Qed.

End SeenFacts.

(** X6.  Every layer, and the final handler, is handed exactly what the
    calls before it contributed: under every key other than [__proto__],
    the accumulators a call sees hold what the partials of the results of
    the earlier calls of the run (the own enumerable properties of the
    result's [data], or [props]), assigned in the order of the calls to the
    empty object, hold.  Nothing else gets into an accumulator and no
    earlier contribution is left out. *)
Theorem X6_a_call_sees_the_earlier_partials :
  (∀ (Ctx W : Type) (ls : list (Api.ApiLayer Ctx W)) (fn : Api.ApiFn Ctx W)
     (c : Ctx) (w : W) (pre post : list (Api.call Ctx W)) (cl : Api.call Ctx W)
     (k : string),
     Api.calls (Api.handler_body ls fn c w) = pre ++ cl :: post →
     k ≠ "__proto__" →
     Api.seen cl !! k
       = foldl (λ acc x, Api.partial (Api.returned x) ∪ acc) ∅ pre !! k)
  ∧
  (∀ (Ctx W : Type) (ls : list (Page.Layer Ctx W)) (fn : option (Page.PageFn Ctx W))
     (c : Ctx) (w : W) (pre post : list (Page.call Ctx W)) (cl : Page.call Ctx W)
     (k : string),
     Page.calls (Page.handler_body ls fn c w) = pre ++ cl :: post →
     k ≠ "__proto__" →
     Page.data (Page.seen cl) !! k
       = foldl (λ acc x, Page.partial_data (Page.returned x) ∪ acc) ∅ pre !! k
     ∧ Page.props (Page.seen cl) !! k
       = foldl (λ acc x, Page.partial_props (Page.returned x) ∪ acc) ∅ pre !! k).
Proof.
  split.
  - intros Ctx W ls fn c w pre post cl k Hc _.
    by rewrite (api_run_seen ls fn c w pre post cl Hc).
  - intros Ctx W ls fn c w pre post cl k Hc _.
    destruct (page_run_seen ls fn c w pre post cl Hc) as [-> ->]. by split.
Qed.

Lemma X6_witness :
  Some (VStr "i")
  = foldl (λ acc x, Api.partial (Api.returned x) ∪ acc) ∅
      [{| Api.target := Api.Layer Sample.api_proto; Api.seen := ∅;
          Api.returned := Return (VObj {[ "data" := VObj Sample.with_proto ]}) |};
       {| Api.target := Api.Layer Sample.api_text; Api.seen := {[ "k" := VNum 1 ]};
          Api.returned := Return (VObj {[ "data" := VStr "hi" ]}) |}] !! "1"
  ∧
  Some (VStr "a1")
  = foldl (λ acc x, Page.partial_props (Page.returned x) ∪ acc) ∅
          [Sample.page_call_a] !! "a".
Proof.
  destruct X6_a_call_sees_the_earlier_partials as [Hapi Hpage]. split.
  - refine (Hapi unit (list string) [Sample.api_proto; Sample.api_text]
      Sample.api_final () []
      [{| Api.target := Api.Layer Sample.api_proto; Api.seen := ∅;
          Api.returned := Return (VObj {[ "data" := VObj Sample.with_proto ]}) |};
       {| Api.target := Api.Layer Sample.api_text; Api.seen := {[ "k" := VNum 1 ]};
          Api.returned := Return (VObj {[ "data" := VStr "hi" ]}) |}]
      []
      {| Api.target := Api.Final;
         Api.seen := {[ "k" := VNum 1; "0" := VStr "h"; "1" := VStr "i" ]};
         Api.returned := Return VUndef |} "1" _ _).
    + vm_compute. reflexivity.
    + done.
  - refine (proj2 (Hpage unit (list string) [Sample.page_a (VStr "a1"); Sample.page_b]
      None () [] [Sample.page_call_a] [] Sample.page_call_b "a" _ _)).
    + vm_compute. reflexivity.
    + done.
Defined.

(** X7.  An accumulator only gains keys in the course of a run: a key that
    one call of a run sees in [data] (or in [props]) is there for every
    later call of the run, the final handler's included. *)
Theorem X7_keys_stay_for_later_calls :
  (∀ (Ctx W : Type) (ls : list (Api.ApiLayer Ctx W)) (fn : Api.ApiFn Ctx W)
     (c : Ctx) (w : W) (pre mid post : list (Api.call Ctx W)) (c1 c2 : Api.call Ctx W)
     (k : string),
     Api.calls (Api.handler_body ls fn c w) = pre ++ c1 :: mid ++ c2 :: post →
     is_Some (Api.seen c1 !! k) → is_Some (Api.seen c2 !! k))
  ∧
  (∀ (Ctx W : Type) (ls : list (Page.Layer Ctx W)) (fn : option (Page.PageFn Ctx W))
     (c : Ctx) (w : W) (pre mid post : list (Page.call Ctx W)) (c1 c2 : Page.call Ctx W)
     (k : string),
     Page.calls (Page.handler_body ls fn c w) = pre ++ c1 :: mid ++ c2 :: post →
     (is_Some (Page.data (Page.seen c1) !! k) → is_Some (Page.data (Page.seen c2) !! k)) ∧
     (is_Some (Page.props (Page.seen c1) !! k) → is_Some (Page.props (Page.seen c2) !! k))).
Proof.
  split.
  - intros Ctx W ls fn c w pre mid post c1 c2 k Hc.
    rewrite (api_run_seen ls fn c w pre (mid ++ c2 :: post) c1 Hc).
    assert (Hc' : Api.calls (Api.handler_body ls fn c w) = (pre ++ c1 :: mid) ++ c2 :: post).
    { by rewrite Hc, <- (assoc_L (++)). }
    rewrite (api_run_seen ls fn c w _ post c2 Hc'), foldl_app.
    apply (foldl_assign_keeps (λ x, Api.partial (Api.returned x))).
  - intros Ctx W ls fn c w pre mid post c1 c2 k Hc.
    destruct (page_run_seen ls fn c w pre (mid ++ c2 :: post) c1 Hc) as [-> ->].
    assert (Hc' : Page.calls (Page.handler_body ls fn c w)
                  = (pre ++ c1 :: mid) ++ c2 :: post).
    { by rewrite Hc, <- (assoc_L (++)). }
    destruct (page_run_seen ls fn c w _ post c2 Hc') as [-> ->].
    rewrite !foldl_app. split.
    + apply (foldl_assign_keeps (λ x, Page.partial_data (Page.returned x))).
    + apply (foldl_assign_keeps (λ x, Page.partial_props (Page.returned x))).
Qed.

Lemma X7_witness :
  is_Some (Api.seen Sample.call_final !! "a")
  ∧ is_Some (Page.props (Page.seen Sample.page_call_b2) !! "a").
Proof.
  destruct X7_keys_stay_for_later_calls as [Hapi Hpage]. split.
  - apply (Hapi unit (list string) [Sample.api_a; Sample.api_empty; Sample.api_b]
      Sample.api_final () [] [Sample.call_a] [Sample.call_b] [] Sample.call_empty
      Sample.call_final "a").
    + vm_compute. reflexivity.
    + vm_compute. eauto.
  - apply (Hpage unit (list string)
      [Sample.page_a (VStr "a1"); Sample.page_b; Sample.page_b] None () []
      [Sample.page_call_a] [] [] Sample.page_call_b Sample.page_call_b2 "a").
    + vm_compute. reflexivity.
    + vm_compute. eauto.
Defined.

(** ** Where a result comes from *)

Lemma api_step_exit (d : obj) (r k : completion) :
  Api.step_layer d r = Exit k →
  (∃ e, r = Throw e ∧ k = Throw e)
  ∨ (∃ o s, r = Return (VObj o) ∧ o !! "stop" = Some s ∧ truthy s = true ∧
            k = Return VUndef)
  ∨ (∃ v, r = Return v ∧ v ≠ VUndef ∧ (∀ o, v ≠ VObj o) ∧ k = Throw TypeError).
Proof.
  destruct r as [v|e]; simpl.
  - destruct v as [| |b|z|s|o]; try discriminate;
      try (intros [= <-]; right; right; eexists; by repeat split).
    destruct (has "stop" o && truthy (get o "stop")) eqn:Hs.
    + intros [= <-]. apply api_stops_iff in Hs as (s & Hs & Ht).
      right. left. by exists o, s.
    + by destruct (has "data" o).
  - intros [= <-]. left. by exists e.
Qed.

Lemma page_step_exit (a : Page.accs) (r k : completion) :
  Page.step_layer a r = Exit k →
  (∃ e, r = Throw e ∧ k = Throw e)
  ∨ (∃ o, r = Return (VObj o) ∧
          (is_Some (o !! "notFound") ∨ is_Some (o !! "redirect")) ∧ k = Return (VObj o))
  ∨ (∃ v, r = Return v ∧ (∀ o, v ≠ VObj o) ∧ k = Throw TypeError).
Proof.
  destruct r as [v|e]; simpl.
  - destruct v as [| |b|z|s|o];
      try (intros [= <-]; right; right; eexists; by repeat split).
    destruct (Page.ends o) eqn:He; [| discriminate].
    intros [= <-]. apply page_ends_true in He. right. left. by exists o.
  - intros [= <-]. left. by exists e.
Qed.

Section OutcomeFacts.
Context {Ctx W : Type}.

(** A loop that is left was left by one of its calls. *)
Lemma api_exit_call (ls : list (Api.ApiLayer Ctx W)) (c : Ctx) (d : obj) (w : W)
    (k : completion) :
  Api.lp_exit (Api.run_layers ls c d w) = Some k →
  ∃ cl l, cl ∈ Api.lp_calls (Api.run_layers ls c d w) ∧ Api.target cl = Api.Layer l ∧
          Api.step_layer (Api.seen cl) (Api.returned cl) = Exit k.
Proof.
  revert d w. induction ls as [|l ls IH]; intros d w; simpl; [done |].
  destruct (l c d w) as [w' r]. destruct (Api.step_layer d r) as [d'|k'] eqn:Hs.
  - cbn [Api.logged Api.lp_calls Api.lp_exit]. intros Hx.
    destruct (IH d' w' Hx) as (cl & l0 & Hin & Ht & Hcl).
    exists cl, l0. split; [by right | done].
  - simpl. intros [= <-]. eexists _, l. split; [by left |]. by split.
Qed.

Lemma page_exit_call (ls : list (Page.Layer Ctx W)) (c : Ctx) (a : Page.accs) (w : W)
    (k : completion) :
  Page.lp_exit (Page.run_layers ls c a w) = Some k →
  ∃ cl l r, cl ∈ Page.lp_calls (Page.run_layers ls c a w) ∧
            Page.target cl = Page.Called l ∧ Page.returned cl = Page.Done r ∧
            Page.step_layer (Page.seen cl) r = Exit k.
Proof.
  revert a w. induction ls as [|l ls IH]; intros a w; simpl; [done |].
  destruct (l c a w) as [w' r]. destruct (Page.step_layer a r) as [a'|k'] eqn:Hs.
  - cbn [Page.logged Page.lp_calls Page.lp_exit]. intros Hx.
    destruct (IH a' w' Hx) as (cl & l0 & r0 & Hin & Ht & Hcl).
    exists cl, l0, r0. split; [by right | done].
  - simpl. intros [= <-]. eexists _, l, r. split; [by left |]. by repeat split.
Qed.

End OutcomeFacts.

(** X8.  What a page handler gives back.  When the compiled handler returns
    a value, the value is either an object with the single key [props]
    holding an object, or an object with a [notFound] or a [redirect] key
    that one of the calls of the run returned, as that call returned it.
    When it returns an object whose [props] is a promise, that object has a
    [notFound] or a [redirect] key and is what the final handler returned.
    When it throws, it throws what one of its calls threw, or the
    [TypeError] for a call that returned something that is not an object,
    or the reason with which the promise under the final handler's [props]
    was rejected. *)
Theorem X8_results_of_a_page_handler :
  ∀ (Ctx W : Type) (ls : list (Page.Layer Ctx W)) (fn : option (Page.PageFn Ctx W))
    (c : Ctx) (w : W),
    (∀ v, Page.outcome (Page.handler_body ls fn c w) = Return v →
       (∃ p : obj, v = VObj {[ "props" := VObj p ]})
       ∨ (∃ o cl, v = VObj o ∧
                  (is_Some (o !! "notFound") ∨ is_Some (o !! "redirect")) ∧
                  cl ∈ Page.calls (Page.handler_body ls fn c w) ∧
                  Page.returned cl = Return (VObj o)))
    ∧
    (∀ res p, Page.outcome (Page.handler_body ls fn c w) = Page.Promising res p →
       (is_Some (res !! "notFound") ∨ is_Some (res !! "redirect")) ∧
       ∃ cl, cl ∈ Page.calls (Page.handler_body ls fn c w) ∧
             Page.target cl = Page.Final ∧ Page.returned cl = Page.Promising res p)
    ∧
    (∀ e, Page.outcome (Page.handler_body ls fn c w) = Throw e →
       (∃ cl, cl ∈ Page.calls (Page.handler_body ls fn c w) ∧ Page.returned cl = Throw e)
       ∨ (e = TypeError ∧
          ∃ cl v, cl ∈ Page.calls (Page.handler_body ls fn c w) ∧
                  Page.returned cl = Return v ∧ ∀ o, v ≠ VObj o)
       ∨ (∃ cl res, cl ∈ Page.calls (Page.handler_body ls fn c w) ∧
                    Page.target cl = Page.Final ∧
                    Page.returned cl = Page.Promising res (Rejected e) ∧
                    res !! "notFound" = None ∧ res !! "redirect" = None)).
Proof.
  intros Ctx W ls fn c w.
  assert (Hcases :
    ∀ k, Page.outcome (Page.handler_body ls fn c w) = k →
      (∃ p : obj, k = Return (VObj {[ "props" := VObj p ]}))
      ∨ ∃ cl, cl ∈ Page.calls (Page.handler_body ls fn c w) ∧
          ((∃ e, Page.returned cl = Throw e ∧ k = Throw e)
           ∨ (∃ o, Page.returned cl = Return (VObj o) ∧
                   (is_Some (o !! "notFound") ∨ is_Some (o !! "redirect")) ∧
                   k = Return (VObj o))
           ∨ (∃ v, Page.returned cl = Return v ∧ (∀ o, v ≠ VObj o) ∧
                   k = Throw TypeError)
           ∨ (∃ res p, Page.target cl = Page.Final ∧
                       Page.returned cl = Page.Promising res p ∧
                       (is_Some (res !! "notFound") ∨ is_Some (res !! "redirect")) ∧
                       k = Page.Promising res p)
           ∨ (∃ res e, Page.target cl = Page.Final ∧
                       Page.returned cl = Page.Promising res (Rejected e) ∧
                       (res !! "notFound" = None ∧ res !! "redirect" = None) ∧
                       k = Throw e))).
  { intros k. unfold Page.handler_body. cbv zeta.
    destruct (Page.lp_exit (Page.run_layers ls c Page.empty_accs w)) as [k'|] eqn:Hx.
    - cbn [Page.outcome Page.calls]. intros <-.
      destruct (page_exit_call _ _ _ _ _ Hx) as (cl & l & r & Hin & _ & Hr & Hs).
      right. exists cl. split; [done |]. rewrite Hr.
      apply page_step_exit in Hs
        as [(e & -> & ->) | [(o & -> & Ho & ->) | (v & -> & Hv & ->)]].
      + left. by exists e.
      + right. left. by exists o.
      + right. right. left. by exists v.
    - destruct fn as [f|]; [| cbn [Page.outcome]; intros <-; left; by eexists].
      destruct (f c _ _) as [w' r].
      destruct (Page.step_final _ r) as [a' k'] eqn:Hf. cbn [Page.outcome Page.calls].
      intros <-. unfold Page.step_final, Page.assign_and_return in Hf.
      assert (Hlast : ∀ (xs : list (Page.call Ctx W)) (x : Page.call Ctx W), x ∈ xs ++ [x]).
      { intros xs x. apply elem_of_app. right. by apply list_elem_of_singleton. }
      destruct r as [[v|e]|res p].
      + destruct v as [| |b|z|s|o];
          try (injection Hf as <- <-; right; eexists; split; [apply Hlast |];
               right; right; left; eexists; by repeat split).
        destruct (Page.ends o) eqn:He; injection Hf as <- <-.
        * right. eexists. split; [apply Hlast |].
          right. left. exists o. apply page_ends_true in He. by repeat split.
        * left. by eexists.
      + injection Hf as <- <-. right. eexists. split; [apply Hlast |].
        left. by exists e.
      + destruct (Page.ends res) eqn:He.
        * injection Hf as <- <-. right. eexists. split; [apply Hlast |].
          do 3 right. left. exists res, p. apply page_ends_true in He. by repeat split.
        * destruct p as [v|e]; injection Hf as <- <-.
          -- left. by eexists.
          -- right. eexists. split; [apply Hlast |].
             do 4 right. exists res, e. apply page_ends_false in He as [??].
             by repeat split. }
  split; [| split].
  - intros v Hv.
    destruct (Hcases _ Hv) as [[p [= ->]] | (cl & Hin & H)].
    + left. by exists p.
    + destruct H as [(e & _ & [=]) | [(o & Hr & Ho & [= ->]) | [(v0 & _ & _ & [=])
        | [(res & p & _ & _ & _ & [=]) | (res & e & _ & _ & _ & [=])]]]].
      right. by exists o, cl.
  - intros res p Hp.
    destruct (Hcases _ Hp) as [[p0 [=]] | (cl & Hin & H)].
    destruct H as [(e & _ & [=]) | [(o & _ & _ & [=]) | [(v0 & _ & _ & [=])
      | [(res0 & p0 & Ht & Hr & Ho & [= -> ->]) | (res0 & e & _ & _ & _ & [=])]]]].
    split; [done |]. by exists cl.
  - intros e He.
    destruct (Hcases _ He) as [[p [=]] | (cl & Hin & H)].
    destruct H as [(e0 & Hr & [= ->]) | [(o & _ & _ & [=]) | [(v & Hr & Hv & [= ->])
      | [(res & p & _ & _ & _ & [=]) | (res & e0 & Ht & Hr & [Hn Hrd] & [= ->])]]]].
    + left. by exists cl.
    + right. left. split; [done |]. by exists cl, v.
    + right. right. by exists cl, res.
Qed.

Lemma X8_witness :
  ((∃ p : obj, VObj Sample.handler_props = VObj {[ "props" := VObj p ]})
   ∨ (∃ o cl, VObj Sample.handler_props = VObj o ∧
        (is_Some (o !! "notFound") ∨ is_Some (o !! "redirect")) ∧
        cl ∈ Page.calls (Page.handler_body [Sample.page_a (VStr "a1")]
                           (Some Sample.page_final_ab) () []) ∧
        Page.returned cl = Return (VObj o)))
  ∧
  ((∃ cl, cl ∈ Page.calls (Page.handler_body [Sample.page_a (VStr "a1")]
                             (Some Sample.page_final_rejecting) () []) ∧
          Page.returned cl = Throw (VStr "boom"))
   ∨ (VStr "boom" = TypeError ∧
      ∃ cl v, cl ∈ Page.calls (Page.handler_body [Sample.page_a (VStr "a1")]
                                 (Some Sample.page_final_rejecting) () []) ∧
              Page.returned cl = Return v ∧ ∀ o, v ≠ VObj o)
   ∨ (∃ cl res, cl ∈ Page.calls (Page.handler_body [Sample.page_a (VStr "a1")]
                                   (Some Sample.page_final_rejecting) () []) ∧
                Page.target cl = Page.Final ∧
                Page.returned cl = Page.Promising res (Rejected (VStr "boom")) ∧
                res !! "notFound" = None ∧ res !! "redirect" = None)).
Proof.
  split.
  - apply (proj1 (X8_results_of_a_page_handler unit (list string)
      [Sample.page_a (VStr "a1")] (Some Sample.page_final_ab) () [])).
    vm_compute. reflexivity.
  - apply (proj2 (proj2 (X8_results_of_a_page_handler unit (list string)
      [Sample.page_a (VStr "a1")] (Some Sample.page_final_rejecting) () []))).
    vm_compute. reflexivity.
Defined.

(** X9.  What an api handler gives back.  When the compiled handler returns
    a value, it is the value the final function returned, or it is
    [undefined] and a layer of the run returned an object whose [stop] is
    truthy.  When it throws, it throws what a layer or the final function
    threw, or the [TypeError] for a layer that returned something that is
    neither [undefined] nor an object. *)
Theorem X9_results_of_an_api_handler :
  ∀ (Ctx W : Type) (ls : list (Api.ApiLayer Ctx W)) (fn : Api.ApiFn Ctx W)
    (c : Ctx) (w : W),
    (∀ v, Api.outcome (Api.handler_body ls fn c w) = Return v →
       (∃ cl, cl ∈ Api.calls (Api.handler_body ls fn c w) ∧
              Api.target cl = Api.Final ∧ Api.returned cl = Return v)
       ∨ (v = VUndef ∧
          ∃ cl l o s, cl ∈ Api.calls (Api.handler_body ls fn c w) ∧
                      Api.target cl = Api.Layer l ∧
                      Api.returned cl = Return (VObj o) ∧
                      o !! "stop" = Some s ∧ truthy s = true))
    ∧
    (∀ e, Api.outcome (Api.handler_body ls fn c w) = Throw e →
       (∃ cl, cl ∈ Api.calls (Api.handler_body ls fn c w) ∧ Api.returned cl = Throw e)
       ∨ (e = TypeError ∧
          ∃ cl l v, cl ∈ Api.calls (Api.handler_body ls fn c w) ∧
                    Api.target cl = Api.Layer l ∧
                    Api.returned cl = Return v ∧ v ≠ VUndef ∧ ∀ o, v ≠ VObj o)).
Proof.
  intros Ctx W ls fn c w. unfold Api.handler_body. cbv zeta.
  destruct (Api.lp_exit (Api.run_layers ls c ∅ w)) as [k|] eqn:Hx.
  - cbn [Api.outcome Api.calls].
    destruct (api_exit_call _ _ _ _ _ Hx) as (cl & l & Hin & Ht & Hs).
    apply api_step_exit in Hs
      as [(e0 & Hr & ->) | [(o & s & Hr & Ho & Hs & ->) | (v0 & Hr & Hu & Hv & ->)]].
    + split; [done |]. intros e [= <-]. left. by exists cl.
    + split; [| done]. intros v [= <-]. right. split; [done |]. by exists cl, l, o, s.
    + split; [done |]. intros e [= <-]. right. split; [done |]. by exists cl, l, v0.
  - destruct (fn c _ _) as [w' r]. cbn [Api.outcome Api.calls].
    split.
    + intros v ->. left. eexists. split;
        [apply elem_of_app; right; apply list_elem_of_singleton; reflexivity |].
      by split.
    + intros e ->. left. eexists. split;
        [apply elem_of_app; right; apply list_elem_of_singleton; reflexivity |].
      done.
Qed.

Lemma X9_witness :
  (∃ cl, cl ∈ Api.calls (Api.handler_body [Sample.api_a; Sample.api_stop; Sample.api_b]
                           Sample.api_echo () []) ∧
         Api.target cl = Api.Final ∧ Api.returned cl = Return VUndef)
  ∨ (VUndef = VUndef ∧
     ∃ cl l o s, cl ∈ Api.calls (Api.handler_body
                                   [Sample.api_a; Sample.api_stop; Sample.api_b]
                                   Sample.api_echo () []) ∧
                 Api.target cl = Api.Layer l ∧
                 Api.returned cl = Return (VObj o) ∧
                 o !! "stop" = Some s ∧ truthy s = true).
Proof.
  apply (proj1 (X9_results_of_an_api_handler unit (list string)
    [Sample.api_a; Sample.api_stop; Sample.api_b] Sample.api_echo () [])).
  reflexivity.
Defined.



(** ** Extending a chain *)

(** X11.  Extending a base chain does not change what the base does.  The
    calls that the loop makes over the base chain [arr] are the first calls
    of every run of a handler compiled from [arr ++ ext]; and when the loop
    over [arr] is left by one of its layers (a [stop], a [notFound], a
    [redirect], a throw), the run over [arr ++ ext] is the run over [arr]:
    the same calls, the same world and the same result, whatever the added
    layers and the final handlers are. *)
Theorem X11_an_extension_runs_the_base_first :
  (∀ (Ctx W : Type) (arr ext : list (Api.ApiLayer Ctx W)) (fn : Api.ApiFn Ctx W)
     (c : Ctx) (w : W),
     Api.lp_calls (Api.run_layers arr c ∅ w)
       `prefix_of` Api.calls (Api.handler_body (arr ++ ext) fn c w)
     ∧ ∀ (fn' : Api.ApiFn Ctx W) (k : completion),
         Api.lp_exit (Api.run_layers arr c ∅ w) = Some k →
         Api.handler_body (arr ++ ext) fn c w = Api.handler_body arr fn' c w ∧
         Api.outcome (Api.handler_body (arr ++ ext) fn c w) = k)
  ∧
  (∀ (Ctx W : Type) (arr ext : list (Page.Layer Ctx W)) (fn : option (Page.PageFn Ctx W))
     (c : Ctx) (w : W),
     Page.lp_calls (Page.run_layers arr c Page.empty_accs w)
       `prefix_of` Page.calls (Page.handler_body (arr ++ ext) fn c w)
     ∧ ∀ (fn' : option (Page.PageFn Ctx W)) (k : completion),
         Page.lp_exit (Page.run_layers arr c Page.empty_accs w) = Some k →
         Page.handler_body (arr ++ ext) fn c w = Page.handler_body arr fn' c w ∧
         Page.outcome (Page.handler_body (arr ++ ext) fn c w) = k).
Proof.
  split.
  - intros Ctx W arr ext fn c w. split.
    + unfold Api.handler_body. rewrite api_run_layers_app. cbv zeta.
      destruct (Api.lp_exit (Api.run_layers arr c ∅ w)) as [k|] eqn:Hx.
      * rewrite ?Hx. exists []. by rewrite (right_id_L [] (++)).
      * cbn [Api.lp_exit Api.lp_calls Api.lp_data Api.lp_world].
        destruct (Api.lp_exit (Api.run_layers ext c _ _)).
        -- cbn [Api.calls]. by eexists.
        -- destruct (fn c _ _). cbn [Api.calls]. rewrite <- (assoc_L (++)). by eexists.
    + intros fn' k Hx. unfold Api.handler_body. rewrite api_run_layers_app. cbv zeta.
      by rewrite !Hx.
  - intros Ctx W arr ext fn c w. split.
    + unfold Page.handler_body. rewrite page_run_layers_app. cbv zeta.
      destruct (Page.lp_exit (Page.run_layers arr c Page.empty_accs w)) as [k|] eqn:Hx.
      * rewrite ?Hx. exists []. by rewrite (right_id_L [] (++)).
      * cbn [Page.lp_exit Page.lp_calls Page.lp_accs Page.lp_world].
        destruct (Page.lp_exit (Page.run_layers ext c _ _)).
        -- cbn [Page.calls]. by eexists.
        -- destruct fn as [f|]; [| cbn [Page.calls]; by eexists].
           destruct (f c _ _). destruct (Page.step_final _ _).
           cbn [Page.calls]. rewrite <- (assoc_L (++)). by eexists.
    + intros fn' k Hx. unfold Page.handler_body. rewrite page_run_layers_app. cbv zeta.
      by rewrite !Hx.
Qed.

Lemma X11_witness :
  Api.handler_body ([Sample.api_a; Sample.api_stop] ++ [Sample.api_b]) Sample.api_echo () []
  = Api.handler_body [Sample.api_a; Sample.api_stop] Sample.api_final () []
  ∧
  Page.handler_body ([Sample.page_other; Sample.page_notFound] ++ [Sample.page_b])
    (Some Sample.page_final) () []
  = Page.handler_body [Sample.page_other; Sample.page_notFound] None () [].
Proof.
  destruct X11_an_extension_runs_the_base_first as [Hapi Hpage]. split.
  - destruct (Hapi unit (list string) [Sample.api_a; Sample.api_stop] [Sample.api_b]
      Sample.api_echo () []) as [_ H].
    exact (proj1 (H Sample.api_final (Return VUndef) eq_refl)).
  - destruct (Hpage unit (list string) [Sample.page_other; Sample.page_notFound]
      [Sample.page_b] (Some Sample.page_final) () []) as [_ H].
    exact (proj1 (H None (Return (Sample.only "notFound" (VBool true))) eq_refl)).
Defined.
